(** * object-tracking: the feature collector and the streaming session

    A shallow embedding of

      - [src/yolo8/lstm/collect_data.py]  (class [DataCollector]), and
      - [src/yolo8/main.py]               (class [VideoProcessor]),

    together with the properties of the two that the specification states.

    Conventions.
      - A Python [float] is an IEEE binary64 number: Rocq's primitive
        [float], with the division written out where Python raises
        [ZeroDivisionError].  A numpy [float32] is the [float] of the same
        value, with its arithmetic rounded to 24 bits.
      - A Python [dict] is a [gmap]; a [list] is a [list].
      - Code that mutates [self] and may raise is written in a small
        state-and-exception monad; what a method does to the outside world
        (the capture device, the display, the disk, the socket) is appended
        to a log kept in the state.
      - Functions of numpy, OpenCV, the tracker and the Python runtime that
        the repository calls but does not define are either inputs of a
        run (a frame carries what the tracker returned for it, a message
        what [json.loads] does with it) or variables of a section. *)

From Stdlib Require Import Floats.PrimFloat.
From Stdlib Require Floats.SpecFloat Floats.FloatOps Floats.FloatAxioms.
From Stdlib Require Import ZArith Bool.
From stdpp Require Import gmap strings list pretty.

Set Warnings "-register-all".

Local Open Scope Z_scope.

(** ** Exceptions and results *)

(** The class of a raised exception.  Python orders these classes
    ([RecursionError] is a [RuntimeError], [JSONDecodeError] and
    [UnicodeDecodeError] are [ValueError]s); the order matters to an
    [except] clause only, and the three [except] clauses of the two files
    name [KeyboardInterrupt], [JSONDecodeError] and [ConnectionClosed],
    none of which has one of the others below it. *)
Inductive exn : Type :=
| KeyboardInterrupt
| ValueError
| ZeroDivisionError
| IndexError
| RuntimeError
| AttributeError
| JSONDecodeError
| ConnectionClosed
| LibraryError (origin : string)
| RecursionError
| UnicodeDecodeError.

Inductive res (A : Type) : Type :=
| Ok (a : A)
| Raise (e : exn).

Arguments Ok {A} a.
Arguments Raise {A} e.

Definition res_bind {A B} (r : res A) (k : A -> res B) : res B :=
  match r with
  | Ok a => k a
  | Raise e => Raise e
  end.

(** ** A state-and-exception monad

    A computation reads and writes a state of type [S] and either returns or
    raises.  The state survives a raise: what Python has already assigned to
    [self] stays assigned while the exception unwinds. *)

Definition M (S A : Type) : Type := S -> res A * S.

Definition ret {S A} (a : A) : M S A := fun s => (Ok a, s).

Definition bind {S A B} (m : M S A) (k : A -> M S B) : M S B :=
  fun s =>
    match m s with
    | (Ok a, s') => k a s'
    | (Raise e, s') => (Raise e, s')
    end.

Definition raise {S A} (e : exn) : M S A := fun s => (Raise e, s).

Definition lift {S A} (r : res A) : M S A := fun s => (r, s).

Definition gets {S A} (f : S -> A) : M S A := fun s => (Ok (f s), s).

Definition modify {S} (f : S -> S) : M S unit := fun s => (Ok tt, f s).

(** [try: body / except: handler], where [handler e = None] means that no
    [except] clause matches [e]. *)
Definition try_except {S A} (body : M S A) (handler : exn -> option (M S A))
  : M S A :=
  fun s =>
    match body s with
    | (Ok a, s') => (Ok a, s')
    | (Raise e, s') =>
        match handler e with
        | Some h => h s'
        | None => (Raise e, s')
        end
    end.

(** [try: body / finally: final].  The final block always runs; an
    exception it raises replaces the outcome of the body. *)
Definition try_finally {S A} (body : M S A) (final : M S unit) : M S A :=
  fun s =>
    match body s with
    | (r, s') =>
        match final s' with
        | (Ok _, s'') => (r, s'')
        | (Raise e, s'') => (Raise e, s'')
        end
    end.

Declare Scope py_scope.
Delimit Scope py_scope with py.

Notation "x <- m ;; k" := (bind m (fun x => k))
  (at level 100, m at next level, right associativity) : py_scope.
Notation "m ;; k" := (bind m (fun _ => k))
  (at level 100, right associativity) : py_scope.

Notation "x <-? r ;; k" := (res_bind r (fun x => k))
  (at level 100, r at next level, right associativity) : py_scope.

Local Open Scope py_scope.

(** ** Python numbers *)

(** A number stored in a feature dict is an [int] (the literal [0]) or a
    [float]. *)
Inductive num : Type :=
| Int (z : Z)
| Float (f : float).

(** [a / b] on two floats: Python raises where IEEE would return an
    infinity or a NaN for a zero divisor. *)
Definition truediv (a b : float) : res float :=
  if PrimFloat.eqb b 0%float then Raise ZeroDivisionError
  else Ok (PrimFloat.div a b).

(** IEEE arithmetic at the width of a numpy [float32]: the exact result
    of [op] on two values, rounded to 24 bits of precision.  A [float32]
    is held as the Python float of the same value, which is what
    [float(x)] makes of it. *)
Definition float32
    (op : Z -> Z -> SpecFloat.spec_float -> SpecFloat.spec_float
          -> SpecFloat.spec_float)
    (a b : float) : float :=
  FloatOps.SF2Prim (op 24 128 (FloatOps.Prim2SF a) (FloatOps.Prim2SF b)).

(** [a / b] on two ints, as far as raising goes. *)
Definition int_truediv_defined (a b : Z) : res unit :=
  if b =? 0 then Raise ZeroDivisionError else Ok tt.

(** * collect_data.py: [DataCollector] *)

Module DataCollector.

(** ** Data *)

(** A row of the keypoint array; only columns 0 and 1 are read.  The
    array is the tracker's, of dtype [float32]. *)
Record point : Type := { px : float; py : float }.

(** The feature dict.  [calculate_features] builds it without the three
    velocity keys ([None] below); [collect_data] adds them with
    [features.update]. *)
Record feature_record : Type := {
  head_x : float;
  head_y : float;
  heart_x : float;
  heart_y : float;
  body_orientation : float;
  timestamp : float;
  velocity_x : option num;
  velocity_y : option num;
  angular_velocity : option num
}.

(** [features.update({'velocity_x': vx, 'velocity_y': vy,
    'angular_velocity': av})] *)
Definition update (f : feature_record) (vx vy av : num) : feature_record :=
  {| head_x := head_x f; head_y := head_y f;
     heart_x := heart_x f; heart_y := heart_y f;
     body_orientation := body_orientation f; timestamp := timestamp f;
     velocity_x := Some vx; velocity_y := Some vy;
     angular_velocity := Some av |}.

(** What [self.model.track] returned for a frame, as far as [collect_data]
    looks at it: [result.boxes.id], [result.boxes.conf] and
    [result.keypoints.data] (one list of rows per detection). *)
Record result : Type := {
  boxes_id : option (list Z);
  boxes_conf : list float;
  keypoints : option (list (list point))
}.

(** One successful [self.video.read()] and what the outside world does
    while the frame is processed: the tracker returns or raises, the clock
    shows [clock] when [calculate_features] reads it, and [cv2.waitKey(1)]
    returns a key code or raises.  A [KeyboardInterrupt] is delivered at
    one of the two places where the loop waits, as a raise of [track] or
    of [key]. *)
Record frame : Type := {
  track : res result;
  clock : float;
  key : res Z
}.

(** The video file: whether it opens, what it reports as
    [CAP_PROP_FRAME_COUNT], and the frames it yields before [read] returns
    [ret = False]. *)
Record source : Type := {
  can_open : bool;
  frame_count : Z;
  frames : list frame
}.

(** What the collector does to the outside world. *)
Inductive effect : Type :=
| Progress (processed total : Z) (collected : nat)
| Imshow
| Stopped
| Persist (snapshot : gmap Z (list feature_record))
| Report (tracked : nat)
| ReleaseVideo
| DestroyAllWindows.

(** [self]: [video] is [None] or the capture object (with what [isOpened]
    answers), [feature_history] the [defaultdict]. *)
Record collector : Type := {
  video : option bool;
  feature_history : gmap Z (list feature_record);
  log : list effect
}.

Definition set_video (v : option bool) (c : collector) : collector :=
  {| video := v; feature_history := feature_history c; log := log c |}.

Definition set_feature_history (h : gmap Z (list feature_record)) (c : collector)
  : collector :=
  {| video := video c; feature_history := h; log := log c |}.

Definition emit (e : effect) : M collector unit :=
  modify (fun c =>
    {| video := video c; feature_history := feature_history c;
       log := log c ++ [e] |}).

(** [DataCollector(video_path)] after [__init__]. *)
Definition init : collector :=
  {| video := None; feature_history := ∅; log := [] |}.

(** [self.feature_history[k]] on the [defaultdict]: a missing key is
    created with an empty list. *)
Definition history_getitem (k : Z) : M collector (list feature_record) :=
  h <- gets feature_history;;
  match h !! k with
  | Some l => ret l
  | None => modify (set_feature_history (<[k := []]> h));; ret []
  end%py.

(** [self.feature_history[k].append(f)] *)
Definition history_append (k : Z) (f : feature_record) : M collector unit :=
  (l <- history_getitem k;;
   h <- gets feature_history;;
   modify (set_feature_history (<[k := l ++ [f]]> h)))%py.

(** [max_time_gap = 0.1] *)
Definition max_time_gap : float := 0x1.999999999999ap-4%float.

(** ** Library functions

    [np.arctan2], [np.degrees] and [Tensor.argmax] are not part of the
    repository. *)
Record library : Type := {
  arctan2 : float -> float -> float;
  degrees : float -> float;
  argmax : list float -> res nat
}.

(** [a[i]] on an array or list, for a non-negative index. *)
Definition getitem {A} (a : list A) (i : nat) : res A :=
  match a !! i with
  | Some x => Ok x
  | None => Raise IndexError
  end.

Section Collector.

Variable lib : library.

(** ** [calculate_features] (lines 32-51)

    [now] is what [time.time()] returns.  The rows hold [float32]
    scalars, and numpy keeps that width through the differences, the sum
    and the division by the int [2], so [arctan2] is handed [float32]
    arguments; [float(...)] widens without rounding. *)
Definition calculate_features (keypoints : list point) (now : float)
  : res feature_record :=
  match take 3 keypoints with
  | [head; heart; tail] =>
      let sub := float32 SpecFloat.SFsub in
      let add := float32 SpecFloat.SFadd in
      let div := float32 SpecFloat.SFdiv in
      let head_to_heart :=
        (sub (px heart) (px head), sub (py heart) (py head)) in
      let heart_to_tail :=
        (sub (px tail) (px heart), sub (py tail) (py heart)) in
      let mean_direction :=
        (div (add head_to_heart.1 heart_to_tail.1) 2%float,
         div (add head_to_heart.2 heart_to_tail.2) 2%float) in
      let body_orientation :=
        degrees lib (arctan2 lib mean_direction.2 mean_direction.1) in
      Ok {| head_x := px head; head_y := py head;
            heart_x := px heart; heart_y := py heart;
            body_orientation := body_orientation;
            timestamp := now;
            velocity_x := None; velocity_y := None;
            angular_velocity := None |}
  | _ => Raise ValueError
  end.

(** ** [collect_data], lines 94-115: the velocity keys *)
Definition with_velocities (prev_features : gmap Z feature_record)
    (fixed_track_id : Z) (features : feature_record) : res feature_record :=
  match prev_features !! fixed_track_id with
  | Some prev =>
      let time_diff := (timestamp features - timestamp prev)%float in
      if PrimFloat.leb time_diff max_time_gap then
        (vx <-? truediv (heart_x features - heart_x prev)%float time_diff;;
         vy <-? truediv (heart_y features - heart_y prev)%float time_diff;;
         av <-? truediv
                  (body_orientation features - body_orientation prev)%float
                  time_diff;;
         Ok (update features (Float vx) (Float vy) (Float av)))%py
      else Ok (update features (Int 0) (Int 0) (Int 0))
  | None => Ok (update features (Int 0) (Int 0) (Int 0))
  end.

(** ** [collect_data], lines 70-130: one pass of the loop body *)

(** Lines 81-118: the most confident detection of the frame, if there is
    one, becomes a record of track 0.  Returns the local
    [prev_features]. *)
Definition record_detection (fr : frame) (result : result)
    (prev_features : gmap Z feature_record)
  : M collector (gmap Z feature_record) :=
  match boxes_id result, keypoints result with
  | Some track_ids, Some keypoints =>
      if bool_decide (0 < length track_ids)%nat then
        max_conf_idx <- lift (argmax lib (boxes_conf result));;
        kpts <- lift (getitem keypoints max_conf_idx);;
        let fixed_track_id := 0 in
        features <- lift (calculate_features kpts (clock fr));;
        features <-
          lift (with_velocities prev_features fixed_track_id features);;
        let prev_features := <[fixed_track_id := features]> prev_features in
        history_append fixed_track_id features;;
        ret prev_features
      else ret prev_features
  | _, _ => ret prev_features
  end.

(** Lines 121-130, with [processed_frames] already incremented: the
    progress line, the window, the key.  Returns whether the loop goes
    on. *)
Definition show_progress (total_frames : Z) (fr : frame)
    (processed_frames : Z) : M collector bool :=
  lift (int_truediv_defined processed_frames total_frames);;
  collected <- history_getitem 0;;
  emit (Progress processed_frames total_frames (length collected));;
  emit Imshow;;
  pressed <- lift (key fr);;
  ret (negb (Z.land pressed 255 =? 113)).

(** Returns whether the loop goes on, and the locals [prev_features] and
    [processed_frames]. *)
Definition iteration (total_frames : Z) (fr : frame)
    (prev_features : gmap Z feature_record) (processed_frames : Z)
  : M collector (bool * gmap Z feature_record * Z) :=
  result <- lift (track fr);;
  prev_features <- record_detection fr result prev_features;;
  let processed_frames := processed_frames + 1 in
  continue <- show_progress total_frames fr processed_frames;;
  ret (continue, prev_features, processed_frames).

(** The [while True] loop over the frames the source still holds; an empty
    list is [ret = False]. *)
Fixpoint run_loop (total_frames : Z) (frames : list frame)
    (prev_features : gmap Z feature_record) (processed_frames : Z)
  : M collector unit :=
  match frames with
  | [] => ret tt
  | fr :: rest =>
      (r <- iteration total_frames fr prev_features processed_frames;;
       let '(continue, prev_features, processed_frames) := r in
       if continue : bool
       then run_loop total_frames rest prev_features processed_frames
       else ret tt)%py
  end.

(** ** [initialize_video], [save_data], [cleanup] *)

Definition initialize_video (src : source) : M collector bool :=
  (modify (set_video (Some (can_open src)));;
   if negb (can_open src) then raise RuntimeError
   else ret (can_open src))%py.

Definition save_data : M collector unit :=
  (h <- gets feature_history;;
   emit (Persist h);;
   let total_frames :=
     match h !! 0 with Some l => length l | None => 0%nat end in
   emit (Report total_frames))%py.

Definition cleanup : M collector unit :=
  (v <- gets video;;
   match v with
   | Some _ => emit ReleaseVideo;; emit DestroyAllWindows
   | None => ret tt
   end)%py.

(** ** [collect_data] (lines 53-135)

    The branch of lines 55-56 is never taken: [initialize_video] raises
    where it would return [False]. *)
Definition collect_data (src : source) : M collector unit :=
  (opened <- initialize_video src;;
   if negb opened then ret tt
   else
     let total_frames := frame_count src in
     try_finally
       (try_except (run_loop total_frames (frames src) ∅ 0)
          (fun e =>
             match e with
             | KeyboardInterrupt => Some (emit Stopped)
             | _ => None
             end))
       (save_data;; cleanup))%py.

End Collector.

(** ** Vocabulary for the properties *)

(** The records collected for the fixed track 0. *)
Definition history (c : collector) : list feature_record :=
  default [] (feature_history c !! 0).

Definition zero_velocities (r : feature_record) : Prop :=
  velocity_x r = Some (Int 0) /\ velocity_y r = Some (Int 0) /\
  angular_velocity r = Some (Int 0).

(** The three velocity keys of [r] are the differences to [p] divided by
    the time between the two. *)
Definition finite_differences (p r : feature_record) : Prop :=
  let dt := (timestamp r - timestamp p)%float in
  velocity_x r = Some (Float ((heart_x r - heart_x p) / dt)%float) /\
  velocity_y r = Some (Float ((heart_y r - heart_y p) / dt)%float) /\
  angular_velocity r =
    Some (Float ((body_orientation r - body_orientation p) / dt)%float).

(** [r] carries the velocities that lines 94-115 give a record whose
    predecessor for the track is [p]. *)
Definition follows (p : option feature_record) (r : feature_record) : Prop :=
  match p with
  | None => zero_velocities r
  | Some p =>
      let dt := (timestamp r - timestamp p)%float in
      if PrimFloat.leb dt max_time_gap
      then PrimFloat.eqb dt 0%float = false /\ finite_differences p r
      else zero_velocities r
  end.

(** Every record of [l] follows the one before it; [p] precedes the
    first. *)
Fixpoint chained (p : option feature_record) (l : list feature_record)
  : Prop :=
  match l with
  | [] => True
  | r :: l' => follows p r /\ chained (Some r) l'
  end.

(** Effects of the loop body, as opposed to those of the final block. *)
Definition in_loop (e : effect) : bool :=
  match e with
  | Progress _ _ _ | Imshow | Stopped => true
  | Persist _ | Report _ | ReleaseVideo | DestroyAllWindows => false
  end.

(** From [c] to [c'] the capture object is the same and the log has grown
    by effects of the loop body only. *)
Definition quiet (c c' : collector) : Prop :=
  video c' = video c /\
  exists d, log c' = log c ++ d /\ forallb in_loop d = true.

(** The shortest signed angle from [b] to [a], for two angles of
    [[-180, 180]], as the specification asks of the angular velocity: the
    difference brought back into [(-180, 180]] by one turn.  This follows
    the specification; the code has no such function. *)
Definition spec_shortest_signed_angle (a b : float) : float :=
  let d := (a - b)%float in
  if PrimFloat.ltb 180%float d then (d - 360)%float
  else if PrimFloat.leb d (-180)%float then (d + 360)%float
  else d.

(** ** Sample runs

    To run the model a [library] is needed.  The one below is exact on the
    inputs of the sample runs and says nothing ([nan]) elsewhere: the
    samples head due east, where [arctan2 (+-0) x = +-0] for [x > 0] and
    [degrees (+-0) = +-0], and their confidences have a single maximum,
    which [argmax] then returns. *)

Fixpoint first_max_from (best : float) (best_i i : nat) (l : list float)
  : nat :=
  match l with
  | [] => best_i
  | c :: l' =>
      if PrimFloat.ltb best c then first_max_from c i (S i) l'
      else first_max_from best best_i (S i) l'
  end.

Definition sample_library : library :=
  {| arctan2 := fun y x =>
       if PrimFloat.eqb y 0%float && PrimFloat.ltb 0%float x then y
       else nan;
     degrees := fun r => if PrimFloat.eqb r 0%float then r else nan;
     argmax := fun l =>
       match l with
       | [] => Raise (LibraryError "argmax")
       | c :: l' => Ok (first_max_from c 0 1 l')
       end |}.

Definition pt (x y : float) : point := {| px := x; py := y |}.

(** One detection heading east, head at [(x, 0)]. *)
Definition eastward (x : float) : result :=
  {| boxes_id := Some [7];
     boxes_conf := [0.5%float];
     keypoints := Some [[pt x 0; pt (x + 1) 0; pt (x + 2) 0]] |}.

(** One detection with two keypoints only. *)
Definition two_keypoints : result :=
  {| boxes_id := Some [7];
     boxes_conf := [0.5%float];
     keypoints := Some [[pt 1 0; pt 2 0]] |}.

Definition seen (r : result) (t : float) : frame :=
  {| track := Ok r; clock := t; key := Ok (-1) |}.

(** Three detections at 1000 s, 1000.0625 s and 1000.5 s, then the tracker
    fails. *)
Definition sample_source : source :=
  {| can_open := true;
     frame_count := 4;
     frames := [ seen (eastward 10) 1000;
                 seen (eastward 12) 1000.0625;
                 seen (eastward 15) 1000.5;
                 {| track := Raise (LibraryError "track");
                    clock := 1001; key := Ok (-1) |} ] |}.

(** A detection, then Ctrl-C during the inference of the second frame. *)
Definition interrupted_source : source :=
  {| can_open := true;
     frame_count := 3;
     frames := [ seen (eastward 10) 1000;
                 {| track := Raise KeyboardInterrupt;
                    clock := 1000.0625; key := Ok (-1) |};
                 seen (eastward 15) 1000.5 ] |}.

(** A detection with the key q pressed in its window, then one more
    frame. *)
Definition quit_source : source :=
  {| can_open := true;
     frame_count := 2;
     frames := [ {| track := Ok (eastward 10); clock := 1000;
                    key := Ok 113 |};
                 seen (eastward 12) 1000.0625 ] |}.

(** A frame with two keypoints, followed by a good one. *)
Definition short_source : source :=
  {| can_open := true;
     frame_count := 2;
     frames := [ seen two_keypoints 1000; seen (eastward 10) 1000.0625 ] |}.

(** Two records of one track, 0.0625 s apart, heading 179 and then -179
    degrees. *)
Definition heading (angle t : float) : feature_record :=
  {| head_x := 10; head_y := 20; heart_x := 11; heart_y := 20;
     body_orientation := angle; timestamp := t;
     velocity_x := None; velocity_y := None; angular_velocity := None |}.

Definition before_wrap : feature_record :=
  update (heading 179 1000) (Int 0) (Int 0) (Int 0).

Definition after_wrap : feature_record := heading (-179) 1000.0625.

(** The three records that the run of [sample_source] collects. *)
Definition collected (x hx t : float) (vx vy av : num) : feature_record :=
  {| head_x := x; head_y := 0; heart_x := hx; heart_y := 0;
     body_orientation := 0; timestamp := t;
     velocity_x := Some vx; velocity_y := Some vy;
     angular_velocity := Some av |}.

Definition first_record : feature_record :=
  collected 10 11 1000 (Int 0) (Int 0) (Int 0).

Definition second_record : feature_record :=
  collected 12 13 1000.0625 (Float 32) (Float 0) (Float 0).

Definition third_record : feature_record :=
  collected 15 16 1000.5 (Int 0) (Int 0) (Int 0).

End DataCollector.

(** * main.py: [VideoProcessor] *)

Module VideoProcessor.

(** ** Data *)

(** What [json.loads] can return. *)
Inductive pyval : Type :=
| PNone
| PBool (b : bool)
| PInt (z : Z)
| PFloat (f : float)
| PStr (s : string)
| PList (l : list pyval)
| PDict (d : gmap string pyval).

(** [json.loads] does not answer every text with a value or a
    [JSONDecodeError].  On what a websocket delivers (a [str], or [bytes]
    for a binary frame) it also gives up with
    - [RecursionError], when brackets are nested deeper than the
      interpreter lets the parser recurse, closed or not (a thousand
      opening brackets and nothing else; an object nested as deep);
    - [ValueError], on an integer literal longer than the interpreter's
      limit for converting digits (4300 by default), also inside an
      otherwise well-formed object;
    - [UnicodeDecodeError], on bytes that are text in no encoding
      [json.loads] detects. *)
Inductive refusal : Type :=
| TooDeep
| TooManyDigits
| NotUnicode.

Definition refusal_exn (why : refusal) : exn :=
  match why with
  | TooDeep => RecursionError
  | TooManyDigits => ValueError
  | NotUnicode => UnicodeDecodeError
  end.

(** A message received from the client.  Its content matters to
    [handle_message] only through [json.loads], which the repository does
    not define, so a message is given by what [json.loads] does with it:
    raise [JSONDecodeError], return a value, or raise something else. *)
Inductive inbound : Type :=
| NotJson (text : string)
| Json (v : pyval)
| Refused (why : refusal).

Definition json_loads (message : inbound) : res pyval :=
  match message with
  | NotJson _ => Raise JSONDecodeError
  | Json v => Ok v
  | Refused why => Raise (refusal_exn why)
  end.

(** A message sent to the client: the dict handed to [json.dumps], with
    its two keys ['type'] and ['message']. *)
Record reply : Type := { type : string; message : string }.

(** What the processor does to the outside world. *)
Inductive effect : Type :=
| Stdout (s : string)
| VideoCapture (opened : bool)
| Release
| CreateTask
| Send (r : reply).

(** [self]: [camera] is [None] or the capture object (with what [isOpened]
    answers); [frame_width] and [frame_height] exist once a camera has
    been opened. *)
Record processor : Type := {
  camera : option bool;
  is_streaming : bool;
  frame_width : option Z;
  frame_height : option Z;
  log : list effect
}.

Definition set_camera (c : option bool) (p : processor) : processor :=
  {| camera := c; is_streaming := is_streaming p;
     frame_width := frame_width p; frame_height := frame_height p;
     log := log p |}.

Definition set_is_streaming (b : bool) (p : processor) : processor :=
  {| camera := camera p; is_streaming := b;
     frame_width := frame_width p; frame_height := frame_height p;
     log := log p |}.

Definition set_frame_size (w h : Z) (p : processor) : processor :=
  {| camera := camera p; is_streaming := is_streaming p;
     frame_width := Some w; frame_height := Some h;
     log := log p |}.

Definition emit (e : effect) : M processor unit :=
  modify (fun p =>
    {| camera := camera p; is_streaming := is_streaming p;
       frame_width := frame_width p; frame_height := frame_height p;
       log := log p ++ [e] |}).

(** [VideoProcessor()] after [__init__]. *)
Definition init : processor :=
  {| camera := None; is_streaming := false;
     frame_width := None; frame_height := None; log := [] |}.

(** The outside world during a connection: whether device 0 opens and
    the frame size it reports, and whether the socket still takes
    messages. *)
Record world : Type := {
  device_opens : bool;
  device_width : Z;
  device_height : Z;
  connected : bool
}.

(** [await websocket.send(json.dumps(r))] *)
Definition send (w : world) (r : reply) : M processor unit :=
  if connected w then emit (Send r) else raise ConnectionClosed.

(** [data.get(k)]: only a dict has [get]. *)
Definition get (data : pyval) (k : string) : res pyval :=
  match data with
  | PDict d => Ok (default PNone (d !! k))
  | _ => Raise AttributeError
  end.

(** [v == s] for a string literal [s]. *)
Definition eq_str (v : pyval) (s : string) : bool :=
  match v with
  | PStr t => bool_decide (t = s)
  | _ => false
  end.

Section Processor.

(** [repr] of a float, a list or a dict is the Python runtime's. *)
Variable repr : pyval -> string.

(** [f'{v}'] *)
Definition format (v : pyval) : string :=
  match v with
  | PNone => "None"
  | PBool true => "True"
  | PBool false => "False"
  | PInt z => pretty z
  | PStr s => s
  | PFloat _ | PList _ | PDict _ => repr v
  end.

(** ** [initialize_camera] (lines 22-29), [release_camera] (lines 31-34) *)

Definition initialize_camera (w : world) : M processor unit :=
  c <- gets camera;;
  match c with
  | None =>
      modify (set_camera (Some (device_opens w)));;
      emit (VideoCapture (device_opens w));;
      if negb (device_opens w) then raise RuntimeError
      else modify (set_frame_size (device_width w) (device_height w))
  | Some _ => ret tt
  end.

Definition release_camera : M processor unit :=
  c <- gets camera;;
  match c with
  | Some _ => emit Release;; modify (set_camera None)
  | None => ret tt
  end.

(** ** [handle_message] (lines 76-111)

    [asyncio.create_task(self.stream_camera(websocket))] is the effect
    [CreateTask]; the push loop itself runs concurrently and is not part
    of this model. *)
Definition handle_message (w : world) (message : inbound)
  : M processor unit :=
  try_except
    (data <- lift (json_loads message);;
     command <- lift (get data "action");;
     if eq_str command "start" then
       streaming <- gets is_streaming;;
       if negb streaming then
         emit (Stdout "Starting camera stream");;
         initialize_camera w;;
         modify (set_is_streaming true);;
         emit CreateTask;;
         send w {| type := "response";
                   message := "Camera streaming started" |}
       else ret tt
     else if eq_str command "stop" then
       emit (Stdout "Stopping camera stream");;
       modify (set_is_streaming false);;
       release_camera;;
       send w {| type := "response";
                 message := "Camera streaming stopped" |}
     else
       send w {| type := "error";
                 message := "Unknown command: " +:+ format command |})
    (fun e =>
       match e with
       | JSONDecodeError =>
           Some (send w {| type := "error";
                           message := "Invalid JSON format" |})
       | _ => None
       end).

(** ** [handle_connection] (lines 113-130) *)

(** [async for message in websocket: await self.handle_message(...)] *)
Fixpoint receive (w : world) (inbox : list inbound) : M processor unit :=
  match inbox with
  | [] => ret tt
  | message :: rest => handle_message w message;; receive w rest
  end.

Definition handle_connection (w : world) (inbox : list inbound)
  : M processor unit :=
  emit (Stdout "New connection established");;
  try_finally
    (try_except
       (send w {| type := "info";
                  message := "Connected to Video Processor" |};;
        receive w inbox)
       (fun e =>
          match e with
          | ConnectionClosed => Some (emit (Stdout "Connection closed"))
          | _ => None
          end))
    (modify (set_is_streaming false);; release_camera).

End Processor.

(** ** Vocabulary for the properties *)

(** [p] after the effects [es], nothing else changed. *)
Definition logged (p : processor) (es : list effect) : processor :=
  {| camera := camera p; is_streaming := is_streaming p;
     frame_width := frame_width p; frame_height := frame_height p;
     log := log p ++ es |}.

(** The two states of the session. *)
Definition idle (p : processor) : Prop :=
  is_streaming p = false /\ camera p = None.

Definition streaming (p : processor) : Prop :=
  is_streaming p = true /\ camera p = Some true.

(** [{action: a}] *)
Definition action (a : pyval) : inbound := Json (PDict {[ "action" := a ]}).

Definition sends (e : effect) : bool :=
  match e with
  | Send _ => true
  | _ => false
  end.

(** The messages of the protocol. *)
Definition greeting : reply :=
  {| type := "info"; message := "Connected to Video Processor" |}.

Definition started : reply :=
  {| type := "response"; message := "Camera streaming started" |}.

Definition stopped : reply :=
  {| type := "response"; message := "Camera streaming stopped" |}.

Definition invalid_json : reply :=
  {| type := "error"; message := "Invalid JSON format" |}.

Definition unknown_command (shown : string) : reply :=
  {| type := "error"; message := "Unknown command: " +:+ shown |}.

(** ** Sample runs

    The samples format strings and [None] only, so that [repr] is never
    called and any function will do for it. *)
Definition sample_repr (v : pyval) : string := "".

Definition online : world :=
  {| device_opens := true; device_width := 640; device_height := 480;
     connected := true |}.

(** A reachable client, but no camera. *)
Definition no_camera : world :=
  {| device_opens := false; device_width := 0; device_height := 0;
     connected := true |}.

(** The processor while it streams to a client. *)
Definition busy : processor :=
  {| camera := Some true; is_streaming := true;
     frame_width := Some 640; frame_height := Some 480; log := [] |}.

End VideoProcessor.

(** * More vocabulary: the collector, block by block *)

Module CollectorTrace.

Import DataCollector.

(** The keypoints that lines 81-89 pick from the tracker's result, if
    any. *)
Definition detection (lib : library) (result : result)
  : res (option (list point)) :=
  match boxes_id result, keypoints result with
  | Some track_ids, Some keypoints =>
      if bool_decide (0 < length track_ids)%nat then
        max_conf_idx <-? argmax lib (boxes_conf result);;
        kpts <-? getitem keypoints max_conf_idx;;
        Ok (Some kpts)
      else Ok None
  | _, _ => Ok None
  end.

(** [self] after [self.feature_history[0].append(r)]. *)
Definition appended (r : feature_record) (c : collector) : collector :=
  {| video := video c;
     feature_history := <[0 := history c ++ [r]]> (feature_history c);
     log := log c |}.

(** The [defaultdict] after [self.feature_history[0]] has been read. *)
Definition touched (c : collector) : gmap Z (list feature_record) :=
  match feature_history c !! 0 with
  | Some _ => feature_history c
  | None => <[0 := []]> (feature_history c)
  end.

(** [self] after the progress line and the window of frame number [n]. *)
Definition shown (total n : Z) (c : collector) : collector :=
  {| video := video c;
     feature_history := touched c;
     log := log c ++ [Progress n total (length (history c)); Imshow] |}.

(** [self] after the [except KeyboardInterrupt] clause. *)
Definition interrupted (c : collector) : collector :=
  {| video := video c;
     feature_history := feature_history c;
     log := log c ++ [Stopped] |}.

(** [self] after the [finally] block, for an opened capture. *)
Definition finished (c : collector) : collector :=
  {| video := video c;
     feature_history := feature_history c;
     log := log c ++ [Persist (feature_history c);
                      Report (length (history c));
                      ReleaseVideo; DestroyAllWindows] |}.

(** The frame numbers and totals of the progress lines in a log. *)
Definition progress_lines (l : list effect) : list (Z * Z) :=
  omap (fun e => match e with
                 | Progress n total _ => Some (n, total)
                 | _ => None
                 end) l.

(** The progress lines and windows of the frames numbered [numbers]. *)
Definition progress_of (total : Z) (collected : nat) (numbers : list Z)
  : list effect :=
  flat_map (fun i => [Progress i total collected; Imshow]) numbers.

(** The tracks other than 0 are the same in [c] and [c']. *)
Definition elsewhere (c c' : collector) : Prop :=
  forall k, k <> 0 -> feature_history c' !! k = feature_history c !! k.

(** The condition of lines 81 and 87 fails: no ids, no keypoints, or an
    empty list of ids. *)
Definition no_detection (result : result) : bool :=
  match boxes_id result, keypoints result with
  | Some track_ids, Some _ => bool_decide (length track_ids = 0%nat)
  | _, _ => true
  end.

(** A frame that is tracked without a detection and whose window gets a
    key other than q. *)
Definition silent (fr : frame) : bool :=
  match track fr, key fr with
  | Ok result, Ok pressed =>
      no_detection result && negb (Z.land pressed 255 =? 113)
  | _, _ => false
  end.

(** ** Samples *)

Definition nothing_detected : result :=
  {| boxes_id := None; boxes_conf := []; keypoints := None |}.

Definition empty_video : source :=
  {| can_open := true; frame_count := 2;
     frames := [seen nothing_detected 1000; seen nothing_detected 1001] |}.

Definition missing_file : source :=
  {| can_open := false; frame_count := 0; frames := [] |}.

(** A frame whose window gets the key code 369, which is q in its low
    byte. *)
Definition frame_with_key_369 : frame :=
  {| track := Ok (eastward 10); clock := 1000; key := Ok 369 |}.

End CollectorTrace.

(** * More vocabulary: the session, case by case *)

Module SessionTrace.

Import VideoProcessor.

(** [data.get('action')] *)
Definition command_of (d : gmap string pyval) : pyval :=
  default PNone (d !! "action").

(** [self] after lines 84-88 when no capture is held and device 0
    opens. *)
Definition opened (w : world) (p : processor) : processor :=
  {| camera := Some true; is_streaming := true;
     frame_width := Some (device_width w);
     frame_height := Some (device_height w);
     log := log p ++ [Stdout "Starting camera stream"; VideoCapture true;
                      CreateTask] |}.

(** [self] when [initialize_camera] raises. *)
Definition failed_to_open (p : processor) : processor :=
  {| camera := Some false; is_streaming := false;
     frame_width := frame_width p; frame_height := frame_height p;
     log := log p ++ [Stdout "Starting camera stream"; VideoCapture false] |}.

(** [self] after lines 84-88 when a capture object is already held. *)
Definition resumed (p : processor) : processor :=
  {| camera := camera p; is_streaming := true;
     frame_width := frame_width p; frame_height := frame_height p;
     log := log p ++ [Stdout "Starting camera stream"; CreateTask] |}.

(** [self] after lines 94-96. *)
Definition halted (p : processor) : processor :=
  {| camera := None; is_streaming := false;
     frame_width := frame_width p; frame_height := frame_height p;
     log := log p ++ Stdout "Stopping camera stream"
                  :: match camera p with
                     | Some _ => [Release]
                     | None => []
                     end |}.

(** [self] after the [finally] block of [handle_connection]. *)
Definition torn_down (p : processor) : processor :=
  {| camera := None; is_streaming := false;
     frame_width := frame_width p; frame_height := frame_height p;
     log := log p ++ match camera p with
                     | Some _ => [Release]
                     | None => []
                     end |}.

Definition is_capture (e : effect) : bool :=
  match e with
  | VideoCapture _ => true
  | _ => false
  end.

Definition is_release (e : effect) : bool :=
  match e with
  | Release => true
  | _ => false
  end.

Definition count (f : effect -> bool) (l : list effect) : nat :=
  length (filter (fun e => f e = true) l).

(** The number of capture objects [self] holds. *)
Definition held (p : processor) : nat :=
  match camera p with
  | Some _ => 1%nat
  | None => 0%nat
  end.

(** A message that [json.loads] turns into a value other than a dict. *)
Definition not_an_object (message : inbound) : bool :=
  match message with
  | NotJson _ | Refused _ | Json (PDict _) => false
  | Json _ => true
  end.

(** A JSON object whose action is start. *)
Definition is_start (message : inbound) : bool :=
  match message with
  | Json (PDict d) => eq_str (command_of d) "start"
  | _ => false
  end.

Definition settled (p : processor) : Prop := idle p \/ streaming p.

(** [json.loads] raised [e] for a message of the inbox. *)
Definition refused_with (e : exn) (inbox : list inbound) : Prop :=
  exists message, message ∈ inbox /\ json_loads message = Raise e.

(** The exceptions [handle_message] and the receive loop can raise, each
    with what it takes. *)
Definition allowed_outcome (w : world) (inbox : list inbound)
    (out : res unit) : Prop :=
  match out with
  | Ok _ => True
  | Raise AttributeError => existsb not_an_object inbox = true
  | Raise RuntimeError =>
      device_opens w = false /\ existsb is_start inbox = true
  | Raise ConnectionClosed => connected w = false
  | Raise JSONDecodeError => False
  | Raise e => refused_with e inbox
  end.

(** ** Samples *)

(** A client that is gone. *)
Definition offline : world :=
  {| device_opens := true; device_width := 640; device_height := 480;
     connected := false |}.

End SessionTrace.

(** * main.py: the push loop

    [get_frame] (lines 43-58) and [stream_camera] (lines 60-74).  The loop
    runs as a task of its own.  Between two suspensions ([await send],
    [await sleep]) a task runs alone, so that one pass of the loop, from
    the test of [self.is_streaming] to the call of [send], is one step;
    what the other tasks do to [self] while the loop is suspended is given
    with each wake-up, as any function on [self].  A finite list of
    wake-ups is a finite stretch of the life of the loop. *)

Module PushLoop.

Import VideoProcessor.

(** The dict of line 66, of type frame. *)
Record frame_message : Type := { data : string; timestamp : string }.

(** Whether the loop is still going after the wake-ups given. *)
Inductive status : Type :=
| Running
| Ended.

(** What the camera returns for [self.camera.read()] at a wake-up
    ([None] is [ret = False]), what [datetime.now().isoformat()] shows,
    whether [send] goes through (or raises [ConnectionClosed]), and what
    the other tasks do to [self] before the next wake-up. *)
Record wakeup (image : Type) : Type := {
  read : option image;
  now : string;
  socket : bool;
  meanwhile : processor -> processor
}.

Arguments read {image} _.
Arguments now {image} _.
Arguments socket {image} _.
Arguments meanwhile {image} _ _.

Section Push.

Context {image : Type}.

(** [self.yolo_model(frame, ...)[0].plot()], which may raise, and
    [base64.b64encode(cv2.imencode('.jpg', ...)[1]).decode('utf-8')]. *)
Variable detect_and_plot : image -> res image.
Variable jpg_as_text : image -> string.

(** [process_frame] (lines 36-41) *)
Definition process_frame (frame : image) : M processor image :=
  lift (detect_and_plot frame).

(** [get_frame] (lines 43-58) *)
Definition get_frame (read : option image) : M processor (option string) :=
  c <- gets camera;;
  match c with
  | None => ret None
  | Some _ =>
      match read with
      | None => ret None
      | Some frame =>
          processed_frame <- process_frame frame;;
          ret (Some (jpg_as_text processed_frame))
      end
  end.

(** [stream_camera] (lines 60-74): the frames sent during the wake-ups
    given, and whether the loop has ended. *)
Fixpoint stream_camera (wakeups : list (wakeup image))
  : M processor (list frame_message * status) :=
  match wakeups with
  | [] => ret ([], Running)
  | u :: rest =>
      streaming <- gets is_streaming;;
      if negb streaming then ret ([], Ended)
      else
        frame <- get_frame (read u);;
        match frame with
        | Some text =>
            if socket u then
              modify (meanwhile u);;
              later <- stream_camera rest;;
              ret ({| data := text; timestamp := now u |} :: later.1,
                   later.2)
            else ret ([], Ended)
        | None =>
            modify (meanwhile u);;
            stream_camera rest
        end
  end.

(** The message a wake-up can give rise to. *)
Definition candidate (u : wakeup image) : option frame_message :=
  match read u with
  | Some frame =>
      match detect_and_plot frame with
      | Ok processed_frame =>
          Some {| data := jpg_as_text processed_frame; timestamp := now u |}
      | Raise _ => None
      end
  | None => None
  end.

(** What the other tasks do during a wake-up. *)
Definition others (q : processor) (u : wakeup image) : processor :=
  meanwhile u q.

End Push.

(** ** Samples

    Images are strings here, detection leaves them as they are and the
    encoding is the identity. *)

Definition sample_detect (frame : string) : res string := Ok frame.

Definition sample_text (frame : string) : string := frame.


(** A wake-up with a frame, during which nothing else happens. *)
Definition undisturbed (frame time : string) : wakeup string :=
  {| read := Some frame; now := time; socket := true;
     meanwhile := fun q => q |}.

End PushLoop.

(** * Properties of the collector *)

Module CollectorProofs.

Import DataCollector.

(** ** The velocity keys *)

Lemma with_velocities_follows prev f r :
  with_velocities prev 0 f = Ok r -> follows (prev !! 0) r.
Proof.
  unfold with_velocities, follows.
  destruct (prev !! 0) as [p|]; [|intros [= <-]; repeat split].
  cbv zeta.
  destruct (PrimFloat.leb (timestamp f - timestamp p) max_time_gap) eqn:Hgap.
  - unfold truediv.
    destruct (PrimFloat.eqb (timestamp f - timestamp p) 0) eqn:Hzero;
      simpl; [discriminate|].
    intros [= <-]. simpl. rewrite Hgap, Hzero. repeat split.
  - intros [= <-]. simpl. rewrite Hgap. repeat split.
Qed.

(** The only way for lines 94-115 to raise: a previous record with the very
    same timestamp. *)
Lemma with_velocities_raises prev f e :
  with_velocities prev 0 f = Raise e ->
  e = ZeroDivisionError /\
  exists p, prev !! 0 = Some p /\
    PrimFloat.eqb (timestamp f - timestamp p) 0 = true.
Proof.
  unfold with_velocities.
  destruct (prev !! 0) as [p|]; [|discriminate]. cbv zeta.
  destruct (PrimFloat.leb _ _); [|discriminate].
  unfold truediv.
  destruct (PrimFloat.eqb (timestamp f - timestamp p) 0) eqn:Hzero;
    simpl; [|discriminate].
  intros [= <-]. split; [reflexivity|]. by exists p.
Qed.

Lemma chained_snoc p l r :
  chained p l -> follows (from_option Some p (last l)) r ->
  chained p (l ++ [r]).
Proof.
  revert p. induction l as [|x l IH]; intros p.
  - simpl. tauto.
  - intros [Hx Hl] Hr. split; [exact Hx|]. apply IH; [exact Hl|].
    rewrite last_cons in Hr. destruct (last l); exact Hr.
Qed.

Lemma chained_split p0 before r after :
  chained p0 (before ++ r :: after) ->
  follows (from_option Some p0 (last before)) r.
Proof.
  revert p0. induction before as [|x before IH]; intros p0.
  - simpl. tauto.
  - intros [_ H]. apply IH in H. rewrite last_cons.
    by destruct (last before).
Qed.

Lemma chained_adjacent p0 before p r after :
  chained p0 (before ++ p :: r :: after) -> follows (Some p) r.
Proof.
  intros H.
  assert (Hs : follows (from_option Some p0 (last (before ++ [p]))) r).
  { apply (chained_split p0 (before ++ [p]) r after).
    by rewrite <- app_assoc. }
  by rewrite last_snoc in Hs.
Qed.

(** ** [calculate_features] and the number of keypoints *)

Lemma calculate_features_short lib kpts now :
  (length kpts < 3)%nat -> calculate_features lib kpts now = Raise ValueError.
Proof.
  intros Hlen. unfold calculate_features.
  destruct kpts as [|a [|b [|d kpts]]]; simpl in *; try reflexivity; lia.
Qed.

Lemma calculate_features_long lib kpts now :
  (3 <= length kpts)%nat ->
  exists f, calculate_features lib kpts now = Ok f /\ timestamp f = now.
Proof.
  intros Hlen. unfold calculate_features.
  destruct kpts as [|a [|b [|d kpts]]]; simpl in *; try lia.
  eexists. split; reflexivity.
Qed.

(** ** What each block of the loop does to [self] *)

Lemma quiet_refl c : quiet c c.
Proof. split; [done|]. exists []. by rewrite app_nil_r. Qed.

Lemma quiet_trans c1 c2 c3 : quiet c1 c2 -> quiet c2 c3 -> quiet c1 c3.
Proof.
  intros [Hv1 (d1 & Hl1 & Hd1)] [Hv2 (d2 & Hl2 & Hd2)]. split; [congruence|].
  exists (d1 ++ d2). rewrite Hl2, Hl1, app_assoc, forallb_app, Hd1, Hd2. done.
Qed.

Lemma history_getitem_run c :
  exists c', history_getitem 0 c = (Ok (history c), c') /\
    video c' = video c /\ log c' = log c /\ history c' = history c.
Proof.
  unfold history_getitem, bind, gets, history.
  destruct (feature_history c !! 0) as [l|] eqn:Hl; simpl.
  - exists c. unfold ret. by rewrite Hl.
  - eexists. split; [reflexivity|]. simpl. by rewrite lookup_insert_eq.
Qed.

Lemma history_append_run f c :
  exists c', history_append 0 f c = (Ok tt, c') /\
    video c' = video c /\ log c' = log c /\ history c' = history c ++ [f].
Proof.
  unfold history_append, bind at 1.
  destruct (history_getitem_run c) as (c1 & -> & Hv & Hl & Hh).
  unfold bind, gets, modify. eexists. split; [reflexivity|].
  cbn [video log set_feature_history]. split_and!; [done..|].
  unfold history. cbn [feature_history set_feature_history].
  by rewrite lookup_insert_eq.
Qed.

Lemma emit_run e c :
  exists c', emit e c = (Ok tt, c') /\
    video c' = video c /\ log c' = log c ++ [e] /\ history c' = history c.
Proof. eexists. split; [reflexivity|]. done. Qed.

(** The case of a block that raises before it has touched [self]. *)
Ltac raised_untouched :=
  intros [= <- <-]; split_and!; [done..|left; done].

Lemma record_detection_spec lib fr result prev c r c' :
  record_detection lib fr result prev c = (r, c') ->
  video c' = video c /\ log c' = log c /\
  ((history c' = history c /\ forall prev', r = Ok prev' -> prev' = prev)
   \/ (exists f r', with_velocities prev 0 f = Ok r' /\
        history c' = history c ++ [r'] /\ r = Ok (<[0:=r']> prev))).
Proof.
  unfold record_detection.
  assert (Hret : forall c r c', ret (S:=collector) prev c = (r, c') ->
    video c' = video c /\ log c' = log c /\
    ((history c' = history c /\ forall prev', r = Ok prev' -> prev' = prev)
     \/ (exists f r', with_velocities prev 0 f = Ok r' /\
          history c' = history c ++ [r'] /\ r = Ok (<[0:=r']> prev)))).
  { intros c0 r0 c0' [= <- <-]. split_and!; [done..|]. left. split; [done|].
    by intros prev' [= <-]. }
  destruct (boxes_id result) as [track_ids|]; [|apply Hret].
  destruct (keypoints result) as [kps|]; [|apply Hret].
  destruct (bool_decide _); [|apply Hret].
  unfold bind at 1, lift at 1.
  destruct (argmax lib _) as [idx|e]; [|raised_untouched].
  unfold bind at 1, lift at 1.
  destruct (getitem kps idx) as [kpts|e]; [|raised_untouched].
  unfold bind at 1, lift at 1.
  destruct (calculate_features lib kpts _) as [f|e]; [|raised_untouched].
  unfold bind at 1, lift at 1.
  destruct (with_velocities prev 0 f) as [r'|e] eqn:Hv; [|raised_untouched].
  unfold bind at 1.
  destruct (history_append_run r' c) as (c1 & -> & Hvid & Hlog & Hh).
  intros [= <- <-]. split_and!; [done..|]. right. by exists f, r'.
Qed.

Lemma show_progress_spec total fr n c r c' :
  show_progress total fr n c = (r, c') -> quiet c c' /\ history c' = history c.
Proof.
  unfold show_progress. unfold bind at 1, lift at 1.
  destruct (int_truediv_defined n total);
    [|intros [= <- <-]; split; [apply quiet_refl|done]].
  unfold bind at 1.
  destruct (history_getitem_run c) as (c1 & -> & Hv1 & Hl1 & Hh1).
  unfold bind at 1.
  destruct (emit_run (Progress n total (length (history c))) c1)
    as (c2 & -> & Hv2 & Hl2 & Hh2).
  unfold bind at 1.
  destruct (emit_run Imshow c2) as (c3 & -> & Hv3 & Hl3 & Hh3).
  assert (Hq : quiet c c3 /\ history c3 = history c).
  { split; [|congruence]. split; [congruence|].
    exists [Progress n total (length (history c)); Imshow].
    split; [|reflexivity].
    rewrite Hl3, Hl2, Hl1, <- app_assoc. reflexivity. }
  unfold bind, lift. by destruct (key fr); intros [= <- <-].
Qed.

Lemma iteration_spec lib total fr prev processed c r c' :
  iteration lib total fr prev processed c = (r, c') ->
  quiet c c' /\
  ((history c' = history c /\
    forall go prev' n, r = Ok (go, prev', n) -> prev' = prev)
   \/ (exists f r', with_velocities prev 0 f = Ok r' /\
        history c' = history c ++ [r'] /\
        forall go prev' n, r = Ok (go, prev', n) -> prev' = <[0:=r']> prev)).
Proof.
  unfold iteration. unfold bind at 1, lift at 1.
  destruct (track fr) as [result|e];
    [|intros [= <- <-]; split; [apply quiet_refl|left; done]].
  unfold bind at 1.
  destruct (record_detection lib fr result prev c) as [r1 c1] eqn:Hrec.
  apply record_detection_spec in Hrec as (Hv1 & Hl1 & Hh1).
  assert (Hq1 : quiet c c1).
  { split; [done|]. exists []. by rewrite app_nil_r. }
  destruct r1 as [prev1|e];
    [|intros [= <- <-]; split; [done|];
      destruct Hh1 as [[Hh1 _]|(f & r' & Hw & Hh1 & _)];
      [left; done|right; exists f, r'; done]].
  cbv zeta. unfold bind at 1.
  destruct (show_progress total fr (processed + 1) c1) as [r2 c2] eqn:Hshow.
  apply show_progress_spec in Hshow as [Hq2 Hh2].
  assert (Hq : quiet c c2) by (eapply quiet_trans; eassumption).
  destruct r2 as [go|e]; intros [= <- <-]; (split; [done|]).
  - destruct Hh1 as [[Hh1 Hp]|(f & r' & Hw & Hh1 & Hp)].
    + left. split; [congruence|]. intros ? ? ? [= _ <- _]. by apply Hp.
    + right. exists f, r'. split_and!; [done|congruence|].
      intros ? ? ? [= _ <- _]. congruence.
  - destruct Hh1 as [[Hh1 Hp]|(f & r' & Hw & Hh1 & Hp)].
    + left. split; [congruence|done].
    + right. exists f, r'. split_and!; [done|congruence|done].
Qed.

(** ** The loop *)

(** The records the loop adds to the history form a chain, and
    [prev_features[0]] is the last of them. *)
Lemma run_loop_spec lib total frames : forall prev processed c r c' old new,
  run_loop lib total frames prev processed c = (r, c') ->
  history c = old ++ new -> chained None new -> prev !! 0 = last new ->
  quiet c c' /\ exists new', history c' = old ++ new' /\ chained None new'.
Proof.
  induction frames as [|fr rest IH]; intros prev processed c r c' old new.
  - intros [= <- <-] Hh Hc _. split; [apply quiet_refl|]. by exists new.
  - cbn [run_loop]. unfold bind at 1.
    destruct (iteration lib total fr prev processed c) as [r1 c1] eqn:Hit.
    apply iteration_spec in Hit as [Hq1 Hh1].
    intros Hrun Hh Hc Hp.
    assert (Hinv : exists new1,
              history c1 = old ++ new1 /\ chained None new1 /\
              forall go prev' n,
                r1 = Ok (go, prev', n) -> prev' !! 0 = last new1).
    { destruct Hh1 as [[Hh1 Hp1]|(f & r' & Hw & Hh1 & Hp1)].
      - exists new. split_and!; [congruence|done|].
        intros go prev' n Hr. by rewrite (Hp1 _ _ _ Hr).
      - exists (new ++ [r']). split_and!.
        + by rewrite Hh1, Hh, app_assoc.
        + apply chained_snoc; [done|]. apply with_velocities_follows in Hw.
          rewrite Hp in Hw. by destruct (last new).
        + intros go prev' n Hr. rewrite (Hp1 _ _ _ Hr), lookup_insert_eq.
          by rewrite last_snoc. }
    destruct Hinv as (new1 & Hh1' & Hc1 & Hp1').
    destruct r1 as [[[go prev1] n1]|e].
    + destruct go.
      * eapply IH in Hrun as [Hq2 Hnew];
          [|exact Hh1'|exact Hc1|by eapply Hp1'].
        split; [by eapply quiet_trans|done].
      * injection Hrun as <- <-. split; [done|]. by exists new1.
    + injection Hrun as <- <-. split; [done|]. by exists new1.
Qed.

(** ** The final block and the whole run *)

Lemma final_block_run c :
  exists c', (save_data;; cleanup) c = (Ok tt, c') /\
    video c' = video c /\ feature_history c' = feature_history c /\
    log c' = log c ++ Persist (feature_history c)
               :: Report (length (history c))
               :: match video c with
                  | Some _ => [ReleaseVideo; DestroyAllWindows]
                  | None => []
                  end.
Proof.
  unfold save_data, cleanup, bind, gets, emit, modify, history. simpl.
  destruct (video c) as [v|] eqn:Hv; simpl; rewrite ?Hv; simpl.
  - eexists. split; [reflexivity|]. simpl. split_and!; [done..|].
    rewrite <- !app_assoc. simpl.
    by destruct (feature_history c !! 0).
  - eexists. split; [reflexivity|]. simpl. split_and!; [done..|].
    rewrite <- !app_assoc. simpl.
    by destruct (feature_history c !! 0).
Qed.

Lemma collect_data_spec lib src c out c' :
  collect_data lib src c = (out, c') ->
  can_open src = true ->
  exists during new,
    log c' = log c ++ during ++
      [Persist (feature_history c'); Report (length (history c'));
       ReleaseVideo; DestroyAllWindows] /\
    forallb in_loop during = true /\
    history c' = history c ++ new /\ chained None new.
Proof.
  intros Hrun Hopen. revert Hrun. unfold collect_data, initialize_video.
  unfold bind at 1. unfold bind at 1. unfold modify at 1.
  rewrite Hopen. cbn [negb]. unfold ret at 1. cbn [negb].
  set (c0 := set_video (Some true) c).
  unfold try_finally, try_except.
  destruct (run_loop lib (frame_count src) (frames src) ∅ 0 c0)
    as [r1 c1] eqn:Hrun.
  apply (run_loop_spec _ _ _ _ _ _ _ _ (history c) []) in Hrun
    as [[Hv1 (d1 & Hl1 & Hd1)] (new & Hh1 & Hnew)];
    [|by rewrite app_nil_r|done|done].
  change (log c0) with (log c) in Hl1.
  change (video c0) with (Some true) in Hv1.
  assert (Hmid : exists c2 r2 d2,
    match r1 with
    | Ok a => (Ok a, c1)
    | Raise e =>
        match match e with
              | KeyboardInterrupt => Some (emit Stopped)
              | _ => None
              end with
        | Some h => h c1
        | None => (Raise e, c1)
        end
    end = (r2, c2) /\ video c2 = Some true /\ log c2 = log c ++ d2 /\
    forallb in_loop d2 = true /\ history c2 = history c ++ new).
  { destruct r1 as [[]|e].
    - exists c1, (Ok tt), d1. by split_and!.
    - destruct e; try (eexists c1, _, d1; by split_and!).
      eexists _, _, (d1 ++ [Stopped]). split; [reflexivity|].
      cbn [video log]. split_and!; [done| |by rewrite forallb_app, Hd1|done].
      by rewrite Hl1, app_assoc. }
  destruct Hmid as (c2 & r2 & d2 & -> & Hv2 & Hl2 & Hd2 & Hh2).
  destruct (final_block_run c2) as (c3 & -> & Hv3 & Hf3 & Hl3).
  rewrite Hv2 in Hl3. intros [= _ <-]. exists d2, new.
  assert (Hh3 : history c3 = history c2) by (unfold history; by rewrite Hf3).
  rewrite Hf3, Hh3, Hl3, Hl2, <- app_assoc. by split_and!.
Qed.

(** A file that does not open: [initialize_video] raises before the [try]
    is entered. *)
Lemma collect_data_closed lib src c :
  can_open src = false ->
  collect_data lib src c = (Raise RuntimeError, set_video (Some false) c).
Proof.
  intros Hopen. unfold collect_data, initialize_video, bind, modify.
  by rewrite Hopen.
Qed.

Lemma collect_data_history lib src c :
  exists new,
    history (collect_data lib src c).2 = history c ++ new /\
    chained None new.
Proof.
  destruct (can_open src) eqn:Hopen.
  - destruct (collect_data lib src c) as [out c'] eqn:Hrun.
    destruct (collect_data_spec _ _ _ _ _ Hrun Hopen)
      as (during & new & _ & _ & Hh & Hc).
    by exists new.
  - rewrite collect_data_closed by done. exists []. by rewrite app_nil_r.
Qed.

(** ** Sample runs *)

Example sample_run :
  collect_data sample_library sample_source init =
  (Raise (LibraryError "track"),
   {| video := Some true;
      feature_history :=
        {[ 0 := [first_record; second_record; third_record] ]};
      log := [ Progress 1 4 1; Imshow; Progress 2 4 2; Imshow;
               Progress 3 4 3; Imshow;
               Persist {[ 0 := [first_record; second_record; third_record] ]};
               Report 3; ReleaseVideo; DestroyAllWindows ] |}).
Proof. vm_compute. reflexivity. Qed.

Example interrupted_run :
  collect_data sample_library interrupted_source init =
  (Ok tt,
   {| video := Some true;
      feature_history := {[ 0 := [first_record] ]};
      log := [ Progress 1 3 1; Imshow; Stopped;
               Persist {[ 0 := [first_record] ]};
               Report 1; ReleaseVideo; DestroyAllWindows ] |}).
Proof. vm_compute. reflexivity. Qed.

Example quit_run :
  collect_data sample_library quit_source init =
  (Ok tt,
   {| video := Some true;
      feature_history := {[ 0 := [first_record] ]};
      log := [ Progress 1 2 1; Imshow;
               Persist {[ 0 := [first_record] ]};
               Report 1; ReleaseVideo; DestroyAllWindows ] |}).
Proof. vm_compute. reflexivity. Qed.

(** With the same timestamp twice the division raises, and the run ends
    there. *)
Example same_timestamp :
  with_velocities {[ 0 := first_record ]} 0
    (collected 12 13 1000 (Int 0) (Int 0) (Int 0))
  = Raise ZeroDivisionError.
Proof. vm_compute. reflexivity. Qed.

(** ** The claims on the collector *)

(** C5.  Take any record [r] that a run of [collect_data] adds to the
    history of track 0, and let [before] be the records the run added
    earlier.  If [r] is the first one, its three velocities are the integer
    zero.  Otherwise let [prev] be the record just before it and [dt] the
    difference of the two timestamps: if [dt <= max_time_gap] then
    [velocity_x] and [velocity_y] are the differences of [heart_x] and of
    [heart_y] divided by [dt], and if not the three velocities are the
    integer zero.  (With [dt = 0] the division raises and no record is
    made: [same_timestamp].) *)
Theorem velocities_of_collected_records lib src c before r after :
  history (collect_data lib src c).2 = history c ++ before ++ r :: after ->
  match last before with
  | None => zero_velocities r
  | Some prev =>
      let dt := (timestamp r - timestamp prev)%float in
      if PrimFloat.leb dt max_time_gap then
        velocity_x r = Some (Float ((heart_x r - heart_x prev) / dt)%float) /\
        velocity_y r = Some (Float ((heart_y r - heart_y prev) / dt)%float)
      else zero_velocities r
  end.
Proof.
  intros Hh. destruct (collect_data_history lib src c) as (new & Hnew & Hc).
  rewrite Hnew in Hh. apply app_inv_head in Hh. subst new.
  apply chained_split in Hc. destruct (last before) as [prev|]; simpl in *.
  - destruct (PrimFloat.leb _ _); [|exact Hc].
    destruct Hc as (_ & Hx & Hy & _). by split.
  - exact Hc.
Qed.

Lemma velocities_of_collected_records_witness :
  history (collect_data sample_library sample_source init).2 =
    history init ++ [first_record] ++ second_record :: [third_record] /\
  velocity_x second_record = Some (Float 32) /\
  velocity_y second_record = Some (Float 0).
Proof.
  assert (H : history (collect_data sample_library sample_source init).2 =
    history init ++ [first_record] ++ second_record :: [third_record])
    by (vm_compute; reflexivity).
  split; [exact H|].
  exact (velocities_of_collected_records sample_library sample_source init
           [first_record] second_record [third_record] H).
Defined.

(** C1, as the code has it.  For two consecutive records [p], [r] that a
    run adds to the history of track 0, with [dt <= max_time_gap] between
    them, [angular_velocity] of [r] is the plain difference of the two
    [body_orientation] values divided by [dt]; no turn is added or
    removed.  From 179 to -179 degrees this is [-358 / dt]. *)
Theorem angular_velocity_is_plain_difference lib src c before p r after :
  history (collect_data lib src c).2
    = history c ++ before ++ p :: r :: after ->
  PrimFloat.leb (timestamp r - timestamp p) max_time_gap = true ->
  let dt := (timestamp r - timestamp p)%float in
  angular_velocity r =
    Some (Float ((body_orientation r - body_orientation p) / dt)%float) /\
  (body_orientation p = 179%float -> body_orientation r = (-179)%float ->
   angular_velocity r = Some (Float (-358 / dt)%float)).
Proof.
  intros Hh Hgap dt.
  destruct (collect_data_history lib src c) as (new & Hnew & Hc).
  rewrite Hnew in Hh. apply app_inv_head in Hh. subst new.
  apply chained_adjacent in Hc. simpl in Hc. rewrite Hgap in Hc.
  destruct Hc as (_ & _ & _ & Hav). split; [exact Hav|].
  intros Hp Hr. rewrite Hav, Hp, Hr. reflexivity.
Qed.

Lemma angular_velocity_is_plain_difference_witness :
  history (collect_data sample_library sample_source init).2 =
    history init ++ [] ++ first_record :: second_record :: [third_record] /\
  angular_velocity second_record =
    Some (Float ((body_orientation second_record
                  - body_orientation first_record)
                 / (timestamp second_record - timestamp first_record))%float).
Proof.
  assert (H : history (collect_data sample_library sample_source init).2 =
    history init ++ [] ++ first_record :: second_record :: [third_record])
    by (vm_compute; reflexivity).
  split; [exact H|].
  apply (angular_velocity_is_plain_difference sample_library sample_source
           init [] first_record second_record [third_record] H).
  vm_compute. reflexivity.
Defined.

(** C1 as stated fails.  The previous record of track 0 heads 179 degrees,
    the new one -179 degrees, 0.0625 s later.  The shortest signed angle
    between the two is 2 degrees, which would give 32 degrees per second;
    lines 99-103 store -5728, that is -358 / 0.0625. *)
Lemma wrap_around_counterexample :
  let dt := (timestamp after_wrap - timestamp before_wrap)%float in
  let claimed :=
    (spec_shortest_signed_angle (body_orientation after_wrap)
       (body_orientation before_wrap) / dt)%float in
  let stored := update after_wrap (Float 0) (Float 0) (Float (-5728)) in
  PrimFloat.leb dt max_time_gap = true /\
  claimed = 32%float /\
  with_velocities {[ 0 := before_wrap ]} 0 after_wrap = Ok stored /\
  angular_velocity stored <> Some (Float claimed).
Proof.
  cbv zeta. split_and!; [by vm_compute..|].
  intros H.
  apply (f_equal (fun o : option num =>
                    match o with
                    | Some (Float a) => PrimFloat.eqb a 32
                    | _ => false
                    end)) in H.
  vm_compute in H. discriminate.
Qed.



(** C4, as the code has it.  When the keypoints picked for a frame are
    fewer than three, [calculate_features] raises [ValueError] (the
    unpacking of line 33).  The loop has no handler for it: it ends at
    that frame with [self] untouched, the frames that follow are not read,
    and [collect_data] saves, releases and lets the error out. *)
Theorem too_few_keypoints_end_the_run lib total fr rest prev processed c
    result track_ids kps idx kpts :
  track fr = Ok result ->
  boxes_id result = Some track_ids -> (0 < length track_ids)%nat ->
  keypoints result = Some kps ->
  argmax lib (boxes_conf result) = Ok idx -> kps !! idx = Some kpts ->
  (length kpts < 3)%nat ->
  calculate_features lib kpts (clock fr) = Raise ValueError /\
  run_loop lib total (fr :: rest) prev processed c = (Raise ValueError, c) /\
  collect_data lib
    {| can_open := true; frame_count := total; frames := fr :: rest |} c =
    (Raise ValueError,
     {| video := Some true;
        feature_history := feature_history c;
        log := log c ++ [Persist (feature_history c);
                         Report (length (history c));
                         ReleaseVideo; DestroyAllWindows] |}).
Proof.
  intros Htrack Hid Hlen Hkps Hmax Hidx Hshort.
  pose proof (calculate_features_short lib kpts (clock fr) Hshort) as Hcalc.
  assert (Hloop : forall prev processed c,
            run_loop lib total (fr :: rest) prev processed c
            = (Raise ValueError, c)).
  { clear prev processed c. intros prev processed c. cbn [run_loop].
    unfold iteration, bind at 1 2, lift at 1.
    rewrite Htrack. unfold bind at 1, record_detection.
    rewrite Hid, Hkps, bool_decide_eq_true_2 by done.
    unfold bind, lift, getitem. by rewrite Hmax, Hidx, Hcalc. }
  split_and!; [done..|].
  unfold collect_data, initialize_video, bind, modify, ret, try_finally,
    try_except. cbn [can_open negb frame_count frames].
  rewrite Hloop.
  unfold save_data, cleanup, bind, gets, emit, modify, history. simpl.
  rewrite <- !app_assoc. simpl. by destruct (feature_history c !! 0).
Qed.

Lemma too_few_keypoints_end_the_run_witness :
  (length [pt 1 0; pt 2 0] < 3)%nat /\
  run_loop sample_library 2 (frames short_source) ∅ 0 init
  = (Raise ValueError, init).
Proof.
  split; [simpl; lia|].
  refine (proj1 (proj2
    (too_few_keypoints_end_the_run sample_library 2
       (seen two_keypoints 1000) [seen (eastward 10) 1000.0625] ∅ 0 init
       two_keypoints [7] [[pt 1 0; pt 2 0]] 0%nat [pt 1 0; pt 2 0]
       eq_refl eq_refl _ eq_refl eq_refl eq_refl _)));
    simpl; lia.
Defined.

(** C4 as stated fails.  The first frame of [short_source] has a
    detection with two keypoints, the second a good one.  The run does not
    skip the first frame and go on: it ends with [ValueError], no record of
    the second frame is collected and no progress is ever shown. *)
Lemma short_frame_counterexample :
  collect_data sample_library short_source init =
  (Raise ValueError,
   {| video := Some true;
      feature_history := ∅;
      log := [Persist ∅; Report 0; ReleaseVideo; DestroyAllWindows] |}).
Proof. vm_compute. reflexivity. Qed.

End CollectorProofs.

(** * Properties of the streaming session *)

Module ProcessorProofs.

Import VideoProcessor.

(** ** What [handle_message] does, case by case *)

Lemma send_run w r p :
  connected w = true -> send w r p = (Ok tt, logged p [Send r]).
Proof. intros Hc. unfold send. by rewrite Hc. Qed.


Lemma handle_unknown repr w d command p :
  connected w = true ->
  default PNone (d !! "action") = command ->
  eq_str command "start" = false -> eq_str command "stop" = false ->
  handle_message repr w (Json (PDict d)) p
  = (Ok tt, logged p [Send (unknown_command (format repr command))]).
Proof.
  intros Hc Hd Hstart Hstop.
  unfold handle_message, try_except, bind at 1 2, lift. cbn [json_loads get].
  rewrite Hd, Hstart, Hstop. by rewrite send_run.
Qed.

Lemma handle_start_streaming repr w d p :
  d !! "action" = Some (PStr "start") -> is_streaming p = true ->
  handle_message repr w (Json (PDict d)) p = (Ok tt, p).
Proof.
  intros Hd Hs.
  unfold handle_message, try_except, bind, lift, gets. cbn [json_loads get].
  rewrite Hd. simpl. by rewrite Hs.
Qed.

Lemma handle_start_no_camera repr w d p :
  d !! "action" = Some (PStr "start") ->
  is_streaming p = false -> camera p = None -> device_opens w = false ->
  handle_message repr w (Json (PDict d)) p
  = (Raise RuntimeError,
     logged (set_camera (Some false) p)
       [Stdout "Starting camera stream"; VideoCapture false]).
Proof.
  intros Hd Hs Hcam Hdev.
  unfold handle_message, try_except, bind, lift, gets. cbn [json_loads get].
  rewrite Hd. simpl. rewrite Hs. simpl.
  unfold initialize_camera, bind, gets, modify, emit. simpl.
  rewrite Hcam, Hdev. simpl. unfold logged, set_camera. simpl.
  by rewrite <- app_assoc.
Qed.

Lemma handle_stop_idle repr w d p :
  connected w = true ->
  d !! "action" = Some (PStr "stop") ->
  is_streaming p = false -> camera p = None ->
  handle_message repr w (Json (PDict d)) p
  = (Ok tt, logged p [Stdout "Stopping camera stream"; Send stopped]).
Proof.
  intros Hc Hd Hs Hcam.
  unfold handle_message, try_except, bind, lift, gets. cbn [json_loads get].
  rewrite Hd. simpl.
  unfold release_camera, bind, gets, modify, emit, send. simpl.
  rewrite Hcam, Hc. simpl. destruct p; simpl in *; subst.
  unfold logged. simpl. by rewrite <- app_assoc.
Qed.

Lemma handle_not_dict repr w v p :
  (forall d, v <> PDict d) ->
  handle_message repr w (Json v) p = (Raise AttributeError, p).
Proof.
  intros Hv. unfold handle_message, try_except, bind, lift. cbn [json_loads].
  destruct v; try reflexivity. by destruct (Hv d).
Qed.


(** ** Sample runs *)

Example start_then_stop :
  handle_connection sample_repr online
    [action (PStr "start"); action (PStr "stop")] init
  = (Ok tt,
     {| camera := None; is_streaming := false;
        frame_width := Some 640; frame_height := Some 480;
        log := [ Stdout "New connection established"; Send greeting;
                 Stdout "Starting camera stream"; VideoCapture true;
                 CreateTask; Send started;
                 Stdout "Stopping camera stream"; Release; Send stopped ] |}).
Proof. vm_compute. reflexivity. Qed.

(** ** The claims on the session *)

(** C2, as the code has it.  A start command that arrives while the
    session streams changes nothing and has no effect at all: no capture
    is opened, no task is created, and no message is sent to the client
    (the acknowledgement of line 89 is inside the branch taken only when
    the session did not stream). *)
Theorem repeated_start_is_ignored repr w d p :
  d !! "action" = Some (PStr "start") ->
  is_streaming p = true ->
  handle_message repr w (Json (PDict d)) p = (Ok tt, p).
Proof. apply handle_start_streaming. Qed.

Lemma repeated_start_is_ignored_witness :
  is_streaming busy = true /\
  handle_message sample_repr online (action (PStr "start")) busy
  = (Ok tt, busy).
Proof.
  split; [reflexivity|].
  exact (repeated_start_is_ignored sample_repr online
           {[ "action" := PStr "start" ]} busy eq_refl eq_refl).
Defined.

(** C2 as stated fails.  The session streams, the client is reachable and
    sends start again: the log stays empty, so nothing was sent. *)
Lemma repeated_start_counterexample :
  streaming busy /\ connected online = true /\
  existsb sends
    (log (handle_message sample_repr online (action (PStr "start")) busy).2)
  = false.
Proof. vm_compute. by split_and!. Qed.

(** C3, as the code has it.  The session is idle, the client is reachable
    and sends start, and the camera does not open.  [initialize_camera]
    raises [RuntimeError]; [handle_message] catches [JSONDecodeError] only
    and sends nothing.  The error leaves [handle_connection] as well, after
    its [finally] block has released the capture object: the messages that
    follow are not handled. *)
Theorem camera_failure_leaves_the_handler repr w d rest p :
  connected w = true -> device_opens w = false ->
  d !! "action" = Some (PStr "start") -> idle p ->
  handle_message repr w (Json (PDict d)) p
  = (Raise RuntimeError,
     logged (set_camera (Some false) p)
       [Stdout "Starting camera stream"; VideoCapture false]) /\
  handle_connection repr w (Json (PDict d) :: rest) p
  = (Raise RuntimeError,
     logged p [ Stdout "New connection established"; Send greeting;
                Stdout "Starting camera stream"; VideoCapture false;
                Release ]).
Proof.
  intros Hc Hdev Hd [Hs Hcam]. split; [by apply handle_start_no_camera|].
  unfold handle_connection, try_finally, try_except, bind at 1, emit at 1,
    modify at 1.
  unfold bind at 1. rewrite send_run by done. cbn [receive]. unfold bind at 1.
  rewrite handle_start_no_camera by done.
  unfold release_camera, bind, gets, modify, emit. simpl.
  destruct p; simpl in *; subst. unfold logged. simpl.
  by rewrite <- !app_assoc.
Qed.

Lemma camera_failure_leaves_the_handler_witness :
  idle init /\
  handle_connection sample_repr no_camera
    [action (PStr "start"); action (PStr "stop")] init
  = (Raise RuntimeError,
     logged init [ Stdout "New connection established"; Send greeting;
                   Stdout "Starting camera stream"; VideoCapture false;
                   Release ]).
Proof.
  split; [by split|].
  exact (proj2 (camera_failure_leaves_the_handler sample_repr no_camera
           {[ "action" := PStr "start" ]} [action (PStr "stop")] init
           eq_refl eq_refl eq_refl (conj eq_refl eq_refl))).
Defined.

(** C3 as stated fails.  With no camera, the start command of an idle
    session is answered by no message at all: [handle_message] raises, and
    of the whole connection the client only ever receives the greeting. *)
Lemma camera_failure_counterexample :
  handle_message sample_repr no_camera (action (PStr "start")) init
  = (Raise RuntimeError,
     {| camera := Some false; is_streaming := false;
        frame_width := None; frame_height := None;
        log := [Stdout "Starting camera stream"; VideoCapture false] |}) /\
  filter (fun e => sends e = true)
    (log (handle_connection sample_repr no_camera
            [action (PStr "start"); action (PStr "stop")] init).2)
  = [Send greeting].
Proof. vm_compute. by split. Qed.




(** C9.  A stop command that arrives while the session is idle (not
    streaming, no capture object) and the client is reachable is accepted:
    the session stays idle, nothing is released, and the client receives
    [{type: response, message: Camera streaming stopped}]. *)
Theorem stop_while_idle repr w d p :
  connected w = true -> idle p ->
  d !! "action" = Some (PStr "stop") ->
  let p' := logged p [Stdout "Stopping camera stream"; Send stopped] in
  handle_message repr w (Json (PDict d)) p = (Ok tt, p') /\ idle p'.
Proof.
  intros Hc [Hs Hcam] Hd p'. split; [by apply handle_stop_idle|].
  by split.
Qed.

Lemma stop_while_idle_witness :
  connected online = true /\ idle init /\
  handle_message sample_repr online (action (PStr "stop")) init
  = (Ok tt, logged init [Stdout "Stopping camera stream"; Send stopped]).
Proof.
  split_and!; [reflexivity|by split|].
  exact (proj1 (stop_while_idle sample_repr online
                  {[ "action" := PStr "stop" ]} init
                  eq_refl (conj eq_refl eq_refl) eq_refl)).
Defined.

(** C10, as the code has it.  A message that [json.loads] turns into a
    dict without the key action is not taken for malformed JSON:
    [data.get] returns [None], the client (if reachable) receives
    [{type: error, message: Unknown command: None}], and nothing else
    changes.  Nothing is said of a message for which [json.loads] raises,
    well-formed or not. *)
Theorem object_without_action repr w message d p :
  connected w = true ->
  json_loads message = Ok (PDict d) -> d !! "action" = None ->
  get (PDict d) "action" = Ok PNone /\
  handle_message repr w message p
  = (Ok tt,
     logged p
       [Send {| type := "error"; message := "Unknown command: None" |}]).
Proof.
  intros Hc Hv Hd. split; [by cbn [get]; rewrite Hd|].
  destruct message as [text|v|why]; simplify_eq/=.
  rewrite (handle_unknown repr w d PNone p); [done..| |done|done].
  by rewrite Hd.
Qed.

Lemma object_without_action_witness :
  connected online = true /\
  handle_message sample_repr online (Json (PDict {[ "speed" := PInt 3 ]})) busy
  = (Ok tt,
     logged busy
       [Send {| type := "error"; message := "Unknown command: None" |}]).
Proof.
  split; [reflexivity|].
  exact (proj2 (object_without_action sample_repr online
                  (Json (PDict {[ "speed" := PInt 3 ]}))
                  {[ "speed" := PInt 3 ]} busy eq_refl eq_refl eq_refl)).
Defined.

(** C10 as stated fails.  The empty JSON array is valid JSON and has no
    action field.  [json.loads] returns a list, on which [data.get] raises
    [AttributeError]; nothing catches it: no error message is sent, and
    the connection handler ends without handling the next message. *)
Lemma array_message_counterexample :
  handle_message sample_repr online (Json (PList [])) init
  = (Raise AttributeError, init) /\
  handle_connection sample_repr online
    [Json (PList []); action (PStr "start")] init
  = (Raise AttributeError,
     logged init [Stdout "New connection established"; Send greeting]).
Proof. vm_compute. by split. Qed.

End ProcessorProofs.

(** * More properties of the collector *)

Module CollectorExtras.

Import DataCollector CollectorTrace CollectorProofs.

(** ** Each block of the loop as an equation *)

Lemma show_progress_exact total fr n c :
  show_progress total fr n c =
  if total =? 0 then (Raise ZeroDivisionError, c)
  else (match key fr with
        | Ok pressed => Ok (negb (Z.land pressed 255 =? 113))
        | Raise e => Raise e
        end, shown total n c).
Proof.
  unfold show_progress, int_truediv_defined, bind at 1, lift at 1.
  destruct (total =? 0); [reflexivity|].
  unfold history_getitem, bind, gets, modify, emit, lift, ret, shown, touched,
    history, set_feature_history.
  destruct (feature_history c !! 0) as [l|] eqn:Hl; simpl;
    rewrite <- ?app_assoc; simpl; by destruct (key fr).
Qed.

Lemma history_append_exact r c :
  history_append 0 r c = (Ok tt, appended r c).
Proof.
  unfold history_append, history_getitem, bind, gets, modify, ret, appended,
    history, set_feature_history.
  destruct (feature_history c !! 0) as [l|] eqn:Hl; simpl; [done|].
  by rewrite insert_insert_eq.
Qed.

Lemma record_detection_exact lib fr result prev c :
  record_detection lib fr result prev c =
  match detection lib result with
  | Raise e => (Raise e, c)
  | Ok None => (Ok prev, c)
  | Ok (Some kpts) =>
      match calculate_features lib kpts (clock fr) with
      | Raise e => (Raise e, c)
      | Ok f =>
          match with_velocities prev 0 f with
          | Raise e => (Raise e, c)
          | Ok r => (Ok (<[0 := r]> prev), appended r c)
          end
      end
  end.
Proof.
  unfold record_detection, detection.
  destruct (boxes_id result) as [ids|]; [|reflexivity].
  destruct (keypoints result) as [kps|]; [|reflexivity].
  destruct (bool_decide _); [|reflexivity].
  unfold bind at 1, lift at 1.
  destruct (argmax lib _) as [idx|e]; [|reflexivity]. cbn [res_bind].
  unfold bind at 1, lift at 1.
  destruct (getitem kps idx) as [kpts|e]; [|reflexivity]. cbn [res_bind].
  unfold bind at 1, lift at 1.
  destruct (calculate_features lib kpts _) as [f|e]; [|reflexivity].
  unfold bind at 1, lift at 1.
  destruct (with_velocities prev 0 f) as [r|e]; [|reflexivity].
  unfold bind. by rewrite history_append_exact.
Qed.

Lemma iteration_exact lib total fr prev n c :
  iteration lib total fr prev n c =
  match track fr with
  | Raise e => (Raise e, c)
  | Ok result =>
      match record_detection lib fr result prev c with
      | (Raise e, c1) => (Raise e, c1)
      | (Ok prev1, c1) =>
          match show_progress total fr (n + 1) c1 with
          | (Raise e, c2) => (Raise e, c2)
          | (Ok go, c2) => (Ok (go, prev1, n + 1), c2)
          end
      end
  end.
Proof.
  unfold iteration, bind at 1, lift at 1.
  destruct (track fr) as [result|e]; [|reflexivity].
  unfold bind at 1.
  destruct (record_detection lib fr result prev c) as [[prev1|e] c1];
    [|reflexivity].
  cbv zeta. unfold bind at 1.
  by destruct (show_progress total fr (n + 1) c1) as [[go|e] c2].
Qed.

Lemma run_loop_cons lib total fr rest prev n c :
  run_loop lib total (fr :: rest) prev n c =
  match iteration lib total fr prev n c with
  | (Ok (go, p, m), c') =>
      if go : bool then run_loop lib total rest p m c' else (Ok tt, c')
  | (Raise e, c') => (Raise e, c')
  end.
Proof.
  cbn [run_loop]. unfold bind.
  destruct (iteration lib total fr prev n c) as [[[[go p] m]|e] c'];
    [|reflexivity].
  by destruct go.
Qed.

(** ** What one pass of the loop can do *)

Lemma with_velocities_base prev k f r :
  with_velocities prev k f = Ok r ->
  head_x r = head_x f /\ head_y r = head_y f /\
  heart_x r = heart_x f /\ heart_y r = heart_y f /\
  body_orientation r = body_orientation f /\ timestamp r = timestamp f /\
  is_Some (velocity_x r) /\ is_Some (velocity_y r) /\
  is_Some (angular_velocity r).
Proof.
  unfold with_velocities.
  destruct (prev !! k) as [p|]; [|intros [= <-]; by split_and!].
  cbv zeta. destruct (PrimFloat.leb _ _); [|intros [= <-]; by split_and!].
  unfold truediv. destruct (PrimFloat.eqb _ _); simpl; [discriminate|].
  intros [= <-]. by split_and!.
Qed.

Lemma calculate_features_timestamp lib kpts now f :
  calculate_features lib kpts now = Ok f -> timestamp f = now.
Proof.
  unfold calculate_features.
  destruct (take 3 kpts) as [|a [|b [|d [|x l]]]]; try discriminate.
  by intros [= <-].
Qed.

(** A pass either raises before the progress line, with at most one
    record appended, or it appends at most one record and shows the
    frame. *)
Lemma iteration_shape lib total fr prev n c :
  exists c1,
    (c1 = c \/ exists r, c1 = appended r c /\ timestamp r = clock fr) /\
    let out := (iteration lib total fr prev n c).1 in
    let c' := (iteration lib total fr prev n c).2 in
    ((c' = c1 /\ exists e, out = Raise e) \/
     (c' = shown total (n + 1) c1 /\ total <> 0 /\
      forall go p m, out = Ok (go, p, m) ->
        m = n + 1 /\
        exists pressed, key fr = Ok pressed /\
          go = negb (Z.land pressed 255 =? 113))).
Proof.
  rewrite iteration_exact.
  destruct (track fr) as [result|e];
    [|exists c; split; [by left|]; left; split; [done|by exists e]].
  rewrite record_detection_exact.
  assert (Hprog : forall (prev1 : gmap Z feature_record) c1,
    let r := match show_progress total fr (n + 1) c1 with
             | (Raise e, c2) => (Raise e, c2)
             | (Ok go, c2) => (Ok (go, prev1, n + 1), c2)
             end in
    (r.2 = c1 /\ (exists e, r.1 = Raise e)) \/
    (r.2 = shown total (n + 1) c1 /\ total <> 0 /\
     forall go p m, r.1 = Ok (go, p, m) ->
       m = n + 1 /\
       exists pressed, key fr = Ok pressed /\
         go = negb (Z.land pressed 255 =? 113))).
  { intros prev1 c1. rewrite show_progress_exact.
    destruct (total =? 0) eqn:Ht; simpl.
    - left. split; [done|]. by eexists.
    - right. apply Z.eqb_neq in Ht.
      destruct (key fr) as [pressed|e]; simpl; (split; [done|]);
        (split; [done|]); [|discriminate].
      intros go p m [= <- _ <-]. split; [done|]. by exists pressed. }
  destruct (detection lib result) as [[kpts|]|e].
  - destruct (calculate_features lib kpts (clock fr)) as [f|e] eqn:Hf;
      [|exists c; split; [by left|]; left; split; [done|by exists e]].
    destruct (with_velocities prev 0 f) as [r|e] eqn:Hr;
      [|exists c; split; [by left|]; left; split; [done|by exists e]].
    exists (appended r c). split.
    + right. exists r. split; [done|].
      apply with_velocities_base in Hr as (_ & _ & _ & _ & _ & -> & _).
      by eapply calculate_features_timestamp.
    + apply Hprog.
  - exists c. split; [by left|]. apply Hprog.
  - exists c. split; [by left|]. left. split; [done|by exists e].
Qed.

Lemma history_appended r c : history (appended r c) = history c ++ [r].
Proof. unfold history, appended. simpl. by rewrite lookup_insert_eq. Qed.

Lemma history_shown total n c : history (shown total n c) = history c.
Proof.
  unfold history, shown, touched. simpl.
  destruct (feature_history c !! 0) as [l|] eqn:Hl; [by rewrite Hl|].
  by rewrite lookup_insert_eq.
Qed.

Lemma elsewhere_appended r c : elsewhere c (appended r c).
Proof. intros k Hk. unfold appended. simpl. by rewrite lookup_insert_ne. Qed.

Lemma elsewhere_shown total n c : elsewhere c (shown total n c).
Proof.
  intros k Hk. unfold shown, touched. simpl.
  destruct (feature_history c !! 0); [done|]. by rewrite lookup_insert_ne.
Qed.

Lemma touched_shown total n c :
  touched (shown total n c) = touched c.
Proof.
  unfold touched at 1. unfold shown. cbn [feature_history].
  unfold touched. destruct (feature_history c !! 0) as [l|] eqn:Hl.
  - by rewrite Hl.
  - by rewrite lookup_insert_eq.
Qed.

(** ** The loop and the run, traced *)

Lemma run_loop_trace lib total frames : forall prev n c,
  let c' := (run_loop lib total frames prev n c).2 in
  video c' = video c /\ elsewhere c c' /\
  exists new k,
    history c' = history c ++ new /\
    sublist (timestamp <$> new) (clock <$> frames) /\
    (k <= length frames)%nat /\
    progress_lines (log c') =
      progress_lines (log c) ++
      ((fun i => (i, total)) <$> seqZ (n + 1) (Z.of_nat k)).
Proof.
  induction frames as [|fr rest IH]; intros prev n c.
  - simpl. split_and!; [done..|]. exists [], 0%nat.
    rewrite !app_nil_r. split_and!; [done| |done..]. constructor.
  - rewrite run_loop_cons.
    destruct (iteration_shape lib total fr prev n c) as (c1 & Hc1 & Hout).
    assert (H1 : video c1 = video c /\ elsewhere c c1 /\ log c1 = log c /\
              exists new1, history c1 = history c ++ new1 /\
                sublist (timestamp <$> new1) [clock fr]).
    { destruct Hc1 as [->|(r & -> & Hr)].
      - split_and!; [done..|]. exists []. rewrite app_nil_r.
        split; [done|]. apply sublist_nil_l.
      - split_and!; [done|apply elsewhere_appended|done|].
        exists [r]. split; [apply history_appended|].
        simpl. by rewrite Hr. }
    destruct H1 as (Hv1 & He1 & Hl1 & new1 & Hh1 & Hs1).
    assert (Hsub : sublist (timestamp <$> new1) (clock <$> fr :: rest)).
    { change (clock <$> fr :: rest) with ([clock fr] ++ (clock <$> rest)).
      rewrite <- (app_nil_r (timestamp <$> new1)).
      apply sublist_app; [done|apply sublist_nil_l]. }
    destruct (iteration lib total fr prev n c) as [out c2].
    cbn [fst snd] in Hout.
    destruct Hout as [[-> (e & ->)]|(-> & Ht & Hout)].
    + cbn [snd]. split_and!; [done..|]. exists new1, 0%nat.
      rewrite app_nil_r, Hl1. split_and!; [done|done|simpl; lia|done].
    + assert (Hshown :
        video (shown total (n + 1) c1) = video c /\
        elsewhere c (shown total (n + 1) c1) /\
        history (shown total (n + 1) c1) = history c ++ new1 /\
        progress_lines (log (shown total (n + 1) c1)) =
          progress_lines (log c) ++ [(n + 1, total)]).
      { split_and!.
        - done.
        - intros k Hk. rewrite elsewhere_shown by done. by apply He1.
        - by rewrite history_shown.
        - simpl. rewrite Hl1. unfold progress_lines.
          by rewrite omap_app. }
      destruct Hshown as (Hv2 & He2 & Hh2 & Hp2).
      assert (Hstop : forall out : res unit,
        let c' := (out, shown total (n + 1) c1).2 in
        video c' = video c /\ elsewhere c c' /\
        exists new k,
          history c' = history c ++ new /\
          sublist (timestamp <$> new) (clock <$> fr :: rest) /\
          (k <= length (fr :: rest))%nat /\
          progress_lines (log c') =
            progress_lines (log c) ++
            ((fun i => (i, total)) <$> seqZ (n + 1) (Z.of_nat k))).
      { intros out'. cbn [snd]. split_and!; [done..|]. exists new1, 1%nat.
        split_and!; [done|done|simpl; lia|done]. }
      destruct out as [[[go p] m]|e]; [|apply Hstop].
      destruct (Hout go p m eq_refl) as (-> & _).
      destruct go; [|apply Hstop].
      specialize (IH p (n + 1) (shown total (n + 1) c1)).
      cbv zeta in IH.
      destruct IH as (Hv3 & He3 & new & k & Hh3 & Hs3 & Hk & Hp3).
      split_and!.
      * congruence.
      * intros j Hj. rewrite He3 by done. by apply He2.
      * exists (new1 ++ new), (S k). split_and!.
        -- by rewrite Hh3, Hh2, app_assoc.
        -- rewrite fmap_app.
           change (clock <$> fr :: rest) with ([clock fr] ++ (clock <$> rest)).
           by apply sublist_app.
        -- simpl. lia.
        -- rewrite Hp3, Hp2, <- app_assoc. f_equal.
           rewrite (seqZ_cons (n + 1)) by lia.
           replace (Z.succ (n + 1)) with (n + 1 + 1) by lia.
           replace (Z.pred (Z.of_nat (S k))) with (Z.of_nat k) by lia.
           reflexivity.
Qed.

Lemma final_block_exact c :
  is_Some (video c) -> (save_data;; cleanup) c = (Ok tt, finished c).
Proof.
  intros [v Hv].
  unfold save_data, cleanup, bind, gets, emit, modify, history, finished.
  simpl. rewrite Hv. simpl. rewrite <- !app_assoc. simpl.
  unfold history. by destruct (feature_history c !! 0).
Qed.

Lemma collect_data_exact lib src c :
  can_open src = true ->
  collect_data lib src c =
  let loop := run_loop lib (frame_count src) (frames src) ∅ 0
                (set_video (Some true) c) in
  match loop.1 with
  | Raise KeyboardInterrupt => (Ok tt, finished (interrupted loop.2))
  | out => (out, finished loop.2)
  end.
Proof.
  intros Hopen. unfold collect_data, initialize_video.
  unfold bind at 1. unfold bind at 1. unfold modify at 1.
  rewrite Hopen. cbn [negb]. unfold ret at 1. cbn [negb].
  set (c0 := set_video (Some true) c).
  pose proof (run_loop_trace lib (frame_count src) (frames src) ∅ 0 c0)
    as (Hv & _).
  cbv zeta in *. change (video c0) with (Some true) in Hv.
  unfold try_finally, try_except.
  destruct (run_loop lib (frame_count src) (frames src) ∅ 0 c0)
    as [[[]|e] c1]; cbn [fst snd] in *.
  - rewrite final_block_exact; [done|by rewrite Hv].
  - destruct e;
      try (rewrite final_block_exact; [done|by rewrite Hv]).
    change (emit Stopped c1)
      with (@pair (res unit) _ (Ok tt) (interrupted c1)).
    cbv beta iota. rewrite final_block_exact; [done|].
    change (video (interrupted c1)) with (video c1). by rewrite Hv.
Qed.

Lemma collect_data_trace lib src c :
  let c' := (collect_data lib src c).2 in
  elsewhere c c' /\
  exists new k,
    history c' = history c ++ new /\
    sublist (timestamp <$> new) (clock <$> frames src) /\
    (k <= length (frames src))%nat /\
    progress_lines (log c') =
      progress_lines (log c) ++
      ((fun i => (i, frame_count src)) <$> seqZ 1 (Z.of_nat k)).
Proof.
  destruct (can_open src) eqn:Hopen.
  - rewrite collect_data_exact by done. cbv zeta.
    pose proof (run_loop_trace lib (frame_count src) (frames src) ∅ 0
                  (set_video (Some true) c))
      as (_ & He & new & k & Hh & Hs & Hk & Hp).
    cbv zeta in *.
    set (loop := run_loop lib (frame_count src) (frames src) ∅ 0
                   (set_video (Some true) c)) in *.
    assert (Hfin : forall c2,
      feature_history c2 = feature_history loop.2 ->
      progress_lines (log c2) = progress_lines (log loop.2) ->
      let c' := finished c2 in
      elsewhere c c' /\
      exists new k,
        history c' = history c ++ new /\
        sublist (timestamp <$> new) (clock <$> frames src) /\
        (k <= length (frames src))%nat /\
        progress_lines (log c') =
          progress_lines (log c) ++
          ((fun i => (i, frame_count src)) <$> seqZ 1 (Z.of_nat k))).
    { intros c2 Hf Hl. split.
      - intros j Hj. simpl. rewrite Hf. by apply He.
      - exists new, k. split_and!; [|done..|].
        + unfold history. simpl. rewrite Hf. exact Hh.
        + simpl. unfold progress_lines in *. rewrite omap_app. simpl.
          rewrite app_nil_r. rewrite Hl. exact Hp. }
    destruct loop.1 as [[]|e]; cbn [snd]; [by apply Hfin|].
    destruct e; try by apply Hfin.
    apply Hfin; [done|]. simpl. unfold progress_lines. rewrite omap_app.
    simpl. by rewrite app_nil_r.
  - rewrite collect_data_closed by done. simpl. split; [done|].
    exists [], 0%nat. rewrite !app_nil_r. split_and!; [done| |lia|done].
    apply sublist_nil_l.
Qed.

(** ** Frames without a detection, and a frame count of zero *)

Lemma detection_none lib result :
  no_detection result = true -> detection lib result = Ok None.
Proof.
  unfold no_detection, detection.
  destruct (boxes_id result) as [ids|]; [|done].
  destruct (keypoints result) as [kps|]; [|done].
  intros H%bool_decide_eq_true. rewrite bool_decide_eq_false_2; [done|lia].
Qed.

Lemma zero_total_raises lib fr prev n c :
  exists e, (iteration lib 0 fr prev n c).1 = Raise e /\
    log (iteration lib 0 fr prev n c).2 = log c.
Proof.
  destruct (iteration_shape lib 0 fr prev n c) as (c1 & Hc1 & Hout).
  cbv zeta in Hout.
  destruct Hout as [[Hc' (e & He)]|(_ & Ht & _)]; [|done].
  exists e. split; [done|]. rewrite Hc'.
  by destruct Hc1 as [->|(r & -> & _)].
Qed.

Lemma run_loop_zero_total lib fr rest prev n c :
  run_loop lib 0 (fr :: rest) prev n c = run_loop lib 0 [fr] prev n c /\
  log (run_loop lib 0 (fr :: rest) prev n c).2 = log c.
Proof.
  rewrite !run_loop_cons.
  destruct (zero_total_raises lib fr prev n c) as (e & He & Hl).
  destruct (iteration lib 0 fr prev n c) as [out c']. cbn [fst snd] in *.
  by subst out.
Qed.

Lemma iteration_silent lib total fr prev n c :
  silent fr = true -> total <> 0 ->
  iteration lib total fr prev n c
  = (Ok (true, prev, n + 1), shown total (n + 1) c).
Proof.
  unfold silent. intros Hs Ht. rewrite iteration_exact.
  destruct (track fr) as [result|]; [|done].
  destruct (key fr) as [pressed|] eqn:Hk; [|done].
  apply andb_true_iff in Hs as [Hnone Hkey].
  rewrite record_detection_exact, detection_none by done.
  rewrite show_progress_exact, Hk.
  apply Z.eqb_neq in Ht. by rewrite Ht, Hkey.
Qed.

Lemma run_loop_silent lib total frames : forall prev n c,
  forallb silent frames = true -> total <> 0 ->
  run_loop lib total frames prev n c =
  (Ok tt,
   match frames with
   | [] => c
   | _ =>
       {| video := video c;
          feature_history := touched c;
          log := log c ++ progress_of total (length (history c))
                            (seqZ (n + 1) (Z.of_nat (length frames))) |}
   end).
Proof.
  induction frames as [|fr rest IH]; intros prev n c Hs Ht; [done|].
  simpl in Hs. apply andb_true_iff in Hs as [Hfr Hrest].
  rewrite run_loop_cons, iteration_silent by done.
  rewrite IH by done. f_equal.
  rewrite (seqZ_cons (n + 1)) by (simpl; lia).
  replace (Z.pred (Z.of_nat (length (fr :: rest))))
    with (Z.of_nat (length rest)) by (simpl; lia).
  replace (Z.succ (n + 1)) with (n + 1 + 1) by lia.
  destruct rest as [|fr' rest']; [reflexivity|].
  rewrite touched_shown, history_shown. cbn [video shown log].
  f_equal. rewrite <- app_assoc. reflexivity.
Qed.

(** A time difference of zero is within [max_time_gap]. *)
Lemma zero_is_within_the_gap dt :
  PrimFloat.eqb dt 0 = true -> PrimFloat.leb dt max_time_gap = true.
Proof.
  rewrite FloatAxioms.eqb_spec, FloatAxioms.leb_spec.
  destruct (FloatOps.Prim2SF dt) as [s|s| |s m e] eqn:H.
  all: unfold SpecFloat.SFeqb, SpecFloat.SFleb, SpecFloat.SFcompare.
  all: try (destruct s); try discriminate.
  all: intros _; vm_compute; reflexivity.
Qed.

(** ** The properties *)

(** X1.  A run of [collect_data] writes the history of track 0 only:
    whatever ids the tracker reports, every other key of
    [feature_history] is as it was. *)
Theorem only_track_zero_is_written lib src c k :
  k <> 0 ->
  feature_history (collect_data lib src c).2 !! k = feature_history c !! k.
Proof. intros Hk. by apply collect_data_trace. Qed.

Lemma only_track_zero_is_written_witness :
  7 <> 0 /\
  feature_history (collect_data sample_library sample_source init).2 !! 7
  = feature_history init !! 7.
Proof.
  split; [done|].
  exact (only_track_zero_is_written sample_library sample_source init 7
           ltac:(done)).
Defined.

(** X2.  A run only appends to the history of track 0, and the records it
    appends follow the frames: their timestamps are the clock readings of
    frames of the source, in the order of the frames and each frame used
    at most once. *)
Theorem records_follow_the_frames lib src c :
  exists new,
    history (collect_data lib src c).2 = history c ++ new /\
    sublist (timestamp <$> new) (clock <$> frames src).
Proof.
  destruct (collect_data_trace lib src c) as (_ & new & k & Hh & Hs & _).
  by exists new.
Qed.

(** X3.  The progress lines of a run count the frames from one, without a
    gap, each with the frame count of the source as total; there are no
    more of them than frames. *)
Theorem progress_is_counted_from_one lib src c :
  exists k : nat,
    (k <= length (frames src))%nat /\
    progress_lines (log (collect_data lib src c).2) =
      progress_lines (log c) ++
      ((fun i => (i, frame_count src)) <$> seqZ 1 (Z.of_nat k)).
Proof.
  destruct (collect_data_trace lib src c) as (_ & new & k & _ & _ & Hk & Hp).
  by exists k.
Qed.

(** X4.  A source that reports a frame count of zero does not get past
    its first frame: the frames after the first make no difference, no
    progress line is ever shown, and when the first frame has no
    detection the run ends with [ZeroDivisionError] (line 121), after the
    final block. *)
Theorem zero_frame_count_stops_at_the_first_frame lib fr rest c :
  let run frames :=
    collect_data lib
      {| can_open := true; frame_count := 0; frames := frames |} c in
  run (fr :: rest) = run [fr] /\
  progress_lines (log (run (fr :: rest)).2) = progress_lines (log c) /\
  (forall result,
     track fr = Ok result -> no_detection result = true ->
     run (fr :: rest)
     = (Raise ZeroDivisionError, finished (set_video (Some true) c))).
Proof.
  cbv zeta. split_and!.
  - rewrite !collect_data_exact by done. cbn [frame_count frames].
    by rewrite (proj1 (run_loop_zero_total lib fr rest _ _ _)).
  - rewrite collect_data_exact by done. cbn [frame_count frames].
    destruct (run_loop_zero_total lib fr rest ∅ 0 (set_video (Some true) c))
      as [_ Hl].
    destruct (run_loop lib 0 (fr :: rest) ∅ 0 (set_video (Some true) c))
      as [out c1]. cbn [fst snd] in *.
    assert (Hfin : progress_lines (log (finished c1)) = progress_lines (log c)).
    { simpl. unfold progress_lines. rewrite omap_app, Hl. simpl.
      by rewrite app_nil_r. }
    destruct out as [[]|e]; [done|].
    destruct e; try done.
    simpl. unfold progress_lines. rewrite !omap_app, Hl. simpl.
    by rewrite !app_nil_r.
  - intros result Htrack Hnone.
    rewrite collect_data_exact by done. cbn [frame_count frames].
    rewrite run_loop_cons, iteration_exact, Htrack, record_detection_exact.
    rewrite detection_none by done. by rewrite show_progress_exact.
Qed.

Lemma zero_frame_count_stops_at_the_first_frame_witness :
  no_detection nothing_detected = true /\
  collect_data sample_library
    {| can_open := true; frame_count := 0;
       frames := [ seen nothing_detected 1000;
                   seen (eastward 10) 1000.0625 ] |} init
  = (Raise ZeroDivisionError, finished (set_video (Some true) init)).
Proof.
  split; [reflexivity|].
  exact (proj2 (proj2 (zero_frame_count_stops_at_the_first_frame
    sample_library (seen nothing_detected 1000)
    [seen (eastward 10) 1000.0625] init)) nothing_detected eq_refl eq_refl).
Defined.

(** X5.  A key code whose low byte is 113 (q, but also 369) ends the loop
    with the frame in whose window it was pressed: the frames after it
    make no difference. *)
Theorem the_key_q_ends_the_loop lib total fr rest prev n c pressed :
  key fr = Ok pressed -> Z.land pressed 255 = 113 ->
  run_loop lib total (fr :: rest) prev n c = run_loop lib total [fr] prev n c.
Proof.
  intros Hkey Hq. rewrite !run_loop_cons.
  destruct (iteration_shape lib total fr prev n c) as (c1 & _ & Hout).
  cbv zeta in Hout.
  destruct (iteration lib total fr prev n c) as [[[[go p] m]|e] c'];
    [|reflexivity].
  cbn [fst snd] in Hout.
  destruct Hout as [[_ (e & He)]|(_ & _ & Hgo)]; [discriminate|].
  destruct (Hgo go p m eq_refl) as (_ & k & Hk & ->).
  rewrite Hkey in Hk. injection Hk as <-. by rewrite Hq.
Qed.

Lemma the_key_q_ends_the_loop_witness :
  Z.land 369 255 = 113 /\
  run_loop sample_library 2
    [frame_with_key_369; seen (eastward 12) 1000.0625] ∅ 0 init
  = run_loop sample_library 2 [frame_with_key_369] ∅ 0 init.
Proof.
  split; [reflexivity|].
  exact (the_key_q_ends_the_loop sample_library 2 frame_with_key_369
           [seen (eastward 12) 1000.0625] ∅ 0 init 369 eq_refl eq_refl).
Defined.

(** X6.  Of the exceptions that end the loop, [collect_data] catches
    [KeyboardInterrupt] and nothing else: on a file that opens it returns
    normally when the loop returned or was interrupted, and otherwise
    raises what the loop raised. *)
Theorem only_interrupts_are_caught lib src c :
  can_open src = true ->
  (collect_data lib src c).1 =
  match (run_loop lib (frame_count src) (frames src) ∅ 0
           (set_video (Some true) c)).1 with
  | Raise KeyboardInterrupt => Ok tt
  | out => out
  end.
Proof.
  intros Hopen. rewrite collect_data_exact by done. cbv zeta.
  destruct (run_loop _ _ _ _ _ _).1 as [[]|e]; [done|]. by destruct e.
Qed.

Lemma only_interrupts_are_caught_witness :
  can_open interrupted_source = true /\
  (collect_data sample_library interrupted_source init).1 = Ok tt.
Proof.
  split; [reflexivity|].
  exact (only_interrupts_are_caught sample_library interrupted_source init
           eq_refl).
Defined.

(** X7.  A video with frames but without a single detection: every frame
    is counted and shown, the run returns normally, and the snapshot
    holds track 0 with the records it had before (for a fresh collector
    the dict with the one key 0 and an empty list, not the empty
    dict). *)
Theorem a_video_without_detections lib src c :
  can_open src = true -> frame_count src <> 0 ->
  frames src <> [] -> forallb silent (frames src) = true ->
  collect_data lib src c =
  (Ok tt,
   finished
     {| video := Some true;
        feature_history := touched c;
        log := log c ++ progress_of (frame_count src) (length (history c))
                          (seqZ 1 (Z.of_nat (length (frames src)))) |}).
Proof.
  intros Hopen Ht Hne Hs. rewrite collect_data_exact by done. cbv zeta.
  rewrite run_loop_silent by done. cbn [fst snd].
  by destruct (frames src).
Qed.

Lemma a_video_without_detections_witness :
  forallb silent (frames empty_video) = true /\
  collect_data sample_library empty_video init
  = (Ok tt,
     {| video := Some true;
        feature_history := {[ 0 := [] ]};
        log := [ Progress 1 2 0; Imshow; Progress 2 2 0; Imshow;
                 Persist {[ 0 := [] ]}; Report 0;
                 ReleaseVideo; DestroyAllWindows ] |}).
Proof.
  split; [reflexivity|].
  exact (a_video_without_detections sample_library empty_video init
           eq_refl ltac:(done) ltac:(done) eq_refl).
Defined.

(** X8.  A file that does not open: [collect_data] raises [RuntimeError]
    before the loop and its [finally] block are entered, so that no frame
    is read, nothing is saved and nothing is released; [self.video] is
    left holding the unopened capture. *)
Theorem a_file_that_does_not_open lib src c :
  can_open src = false ->
  collect_data lib src c
  = (Raise RuntimeError,
     {| video := Some false;
        feature_history := feature_history c;
        log := log c |}).
Proof. intros H. by rewrite collect_data_closed. Qed.

Lemma a_file_that_does_not_open_witness :
  can_open missing_file = false /\
  collect_data sample_library missing_file init
  = (Raise RuntimeError,
     {| video := Some false; feature_history := ∅; log := [] |}).
Proof.
  split; [reflexivity|].
  exact (a_file_that_does_not_open sample_library missing_file init eq_refl).
Defined.

(** X9.  Lines 94-115 raise in one case only, and then
    [ZeroDivisionError]: when the previous record of the track has a
    timestamp that differs from the new one by zero.  A missing previous
    record, a gap above [max_time_gap], a negative gap or a NaN never
    raise. *)
Theorem velocities_fail_only_on_equal_timestamps prev k f :
  (forall e, with_velocities prev k f = Raise e -> e = ZeroDivisionError) /\
  ((exists e, with_velocities prev k f = Raise e) <->
   (exists p, prev !! k = Some p /\
      PrimFloat.eqb (timestamp f - timestamp p) 0 = true)).
Proof.
  unfold with_velocities.
  destruct (prev !! k) as [p|].
  2:{ split; [discriminate|].
      split; [intros [e ?]; discriminate|intros (p & ? & _); discriminate]. }
  cbv zeta.
  destruct (PrimFloat.eqb (timestamp f - timestamp p) 0) eqn:Hzero.
  - rewrite (zero_is_within_the_gap _ Hzero). unfold truediv.
    rewrite Hzero. simpl. split; [by intros e [= <-]|].
    split; [intros _; by exists p|intros _; by eexists].
  - destruct (PrimFloat.leb _ _).
    + unfold truediv. rewrite Hzero. simpl. split; [discriminate|].
      split; [intros [e ?]; discriminate|].
      intros (q & [= <-] & Hq). congruence.
    + split; [discriminate|].
      split; [intros [e ?]; discriminate|].
      intros (q & [= <-] & Hq). congruence.
Qed.

(** X10.  [calculate_features] returns a record exactly when it is given
    at least three keypoints; what the coordinates are (zero, equal,
    infinite, NaN) makes no difference to that. *)
Theorem three_keypoints_are_enough lib kpts now :
  (exists f, calculate_features lib kpts now = Ok f) <->
  (3 <= length kpts)%nat.
Proof.
  split.
  - intros [f Hf]. destruct (decide (3 <= length kpts)%nat); [done|].
    rewrite calculate_features_short in Hf by lia. discriminate.
  - intros H.
    destruct (calculate_features_long lib kpts now H) as (f & Hf & _).
    by exists f.
Qed.

End CollectorExtras.

(** * More properties of the streaming session *)

Module ProcessorExtras.

Import VideoProcessor SessionTrace ProcessorProofs.

(** ** [handle_message] and [handle_connection] as equations *)

Lemma handle_message_exact repr w message p :
  handle_message repr w message p =
  match message with
  | NotJson _ => send w invalid_json p
  | Json (PDict d) =>
      if eq_str (command_of d) "start" then
        if is_streaming p then (Ok tt, p)
        else match camera p with
             | None =>
                 if device_opens w then send w started (opened w p)
                 else (Raise RuntimeError, failed_to_open p)
             | Some _ => send w started (resumed p)
             end
      else if eq_str (command_of d) "stop" then send w stopped (halted p)
      else send w (unknown_command (format repr (command_of d))) p
  | Json _ => (Raise AttributeError, p)
  | Refused why => (Raise (refusal_exn why), p)
  end.
Proof.
  destruct message as [text|v|why]; [| |by destruct why].
  { unfold handle_message, try_except, bind, lift. simpl.
    unfold send. by destruct (connected w). }
  destruct v as [| | | | | |d]; try reflexivity.
  unfold handle_message, try_except, initialize_camera, release_camera,
    bind, lift, gets, modify, emit, send, ret, raise.
  cbn [json_loads get]. fold (command_of d).
  unfold opened, failed_to_open, resumed, halted, emit, modify.
  destruct p as [[b|] [] fw fh lg];
    destruct (eq_str (command_of d) "start");
    destruct (eq_str (command_of d) "stop");
    destruct (device_opens w), (connected w); simpl;
    rewrite <- ?app_assoc; reflexivity.
Qed.

Lemma command_of_action d a : d !! "action" = Some a -> command_of d = a.
Proof. unfold command_of. by intros ->. Qed.

Lemma teardown_exact p :
  (modify (set_is_streaming false);; release_camera) p = (Ok tt, torn_down p).
Proof.
  unfold release_camera, bind, gets, modify, emit, torn_down. simpl.
  destruct p as [[b|] flag fw fh lg]; simpl; [done|]. by rewrite app_nil_r.
Qed.

Lemma receive_cons repr w message rest p :
  receive repr w (message :: rest) p =
  match handle_message repr w message p with
  | (Ok _, p1) => receive repr w rest p1
  | (Raise e, p1) => (Raise e, p1)
  end.
Proof.
  cbn [receive]. unfold bind.
  by destruct (handle_message repr w message p) as [[[]|e] p1].
Qed.

Lemma handle_connection_exact repr w inbox p :
  handle_connection repr w inbox p =
  let p0 := logged p [Stdout "New connection established"] in
  let served :=
    if connected w then receive repr w inbox (logged p0 [Send greeting])
    else (Raise ConnectionClosed, p0) in
  match served.1 with
  | Raise ConnectionClosed =>
      (Ok tt, torn_down (logged served.2 [Stdout "Connection closed"]))
  | out => (out, torn_down served.2)
  end.
Proof.
  unfold handle_connection, try_finally, try_except.
  unfold bind at 1, emit at 1, modify at 1.
  change {| camera := camera p; is_streaming := is_streaming p;
            frame_width := frame_width p; frame_height := frame_height p;
            log := log p ++ [Stdout "New connection established"] |}
    with (logged p [Stdout "New connection established"]).
  cbv zeta. set (p0 := logged p [Stdout "New connection established"]).
  unfold bind at 1, send at 1.
  destruct (connected w).
  - change (emit (Send {| type := "info";
                          message := "Connected to Video Processor" |}) p0)
      with (@pair (res unit) _ (Ok tt) (logged p0 [Send greeting])).
    cbv beta iota.
    destruct (receive repr w inbox (logged p0 [Send greeting]))
      as [[[]|e] s]; cbn [fst snd].
    + by rewrite teardown_exact.
    + destruct e; try by rewrite teardown_exact.
      change (emit (Stdout "Connection closed") s)
        with (@pair (res unit) _ (Ok tt)
                (logged s [Stdout "Connection closed"])).
      cbv beta iota. by rewrite teardown_exact.
  - unfold raise. cbn [fst snd].
    change (emit (Stdout "Connection closed") p0)
      with (@pair (res unit) _ (Ok tt)
              (logged p0 [Stdout "Connection closed"])).
    cbv beta iota. by rewrite teardown_exact.
Qed.

(** ** Facts that hold message by message *)

(** All the cases of [handle_message], with [self] taken apart. *)
Ltac handle_cases w p :=
  rewrite handle_message_exact;
  destruct p as [[?|] [] ? ? ?];
  repeat match goal with
  | |- context [match ?m with
                | NotJson _ => _ | Json _ => _ | Refused _ => _
                end] =>
      destruct m as [?|[| | | | | |?]|[]]
  | |- context [if eq_str ?c ?s then _ else _] => destruct (eq_str c s) eqn:?
  end;
  cbn [is_streaming camera];
  destruct (device_opens w) eqn:?, (connected w) eqn:?;
  unfold send, emit, modify, opened, failed_to_open, resumed, halted, logged;
  cbn [is_streaming camera log frame_width frame_height snd fst];
  repeat match goal with H : connected w = _ |- _ => rewrite H end;
  cbn [is_streaming camera log frame_width frame_height snd fst].

Lemma count_app f l1 l2 : count f (l1 ++ l2) = (count f l1 + count f l2)%nat.
Proof. unfold count. by rewrite filter_app, length_app. Qed.

Lemma handle_message_balance repr w message p :
  let p' := (handle_message repr w message p).2 in
  exists d, log p' = log p ++ d /\
    (count is_capture d + held p = count is_release d + held p')%nat.
Proof.
  cbv zeta. handle_cases w p;
    try (exists []; split; [by rewrite app_nil_r|reflexivity]);
    (eexists; split; [rewrite <- ?app_assoc; reflexivity|reflexivity]).
Qed.

Lemma handle_message_outcome repr w message p :
  allowed_outcome w [message] (handle_message repr w message p).1.
Proof.
  handle_cases w p; try done;
    cbn [allowed_outcome fst existsb is_start refusal_exn];
    first [ by eexists; split; [by constructor|]
          | by rewrite orb_false_r ].
Qed.

Lemma handle_message_settled repr w message p :
  settled p ->
  (handle_message repr w message p).1 <> Raise RuntimeError ->
  settled (handle_message repr w message p).2.
Proof.
  intros Hp. revert Hp. unfold settled, idle, streaming.
  handle_cases w p; intros [[? ?]|[? ?]] ?; simplify_eq; try done;
    try (left; by split); try (right; by split).
Qed.


(** What is allowed of one message, or of the messages behind it, is
    allowed of the inbox. *)
Lemma allowed_outcome_later w message rest out :
  allowed_outcome w rest out -> allowed_outcome w (message :: rest) out.
Proof.
  destruct out as [[]|e]; [done|].
  destruct e; cbn [allowed_outcome existsb]; try done.
  all: try (intros (m & Hm & He); exists m; split; [by constructor|done]).
  - intros [? ->]. by rewrite orb_true_r.
  - intros ->. by rewrite orb_true_r.
Qed.

Lemma allowed_outcome_first w message rest out :
  allowed_outcome w [message] out -> allowed_outcome w (message :: rest) out.
Proof.
  destruct out as [[]|e]; [done|].
  destruct e; cbn [allowed_outcome existsb]; try done.
  all: try (intros (m & Hm & He); exists m; split; [|done];
            apply list_elem_of_singleton in Hm as ->; by constructor).
  - rewrite orb_false_r. intros [? ->]. done.
  - rewrite orb_false_r. by intros ->.
Qed.

Lemma receive_facts repr w inbox : forall p,
  let out := (receive repr w inbox p).1 in
  let p' := (receive repr w inbox p).2 in
  allowed_outcome w inbox out /\
  (exists d, log p' = log p ++ d /\
     (count is_capture d + held p = count is_release d + held p')%nat) /\
  (settled p -> out <> Raise RuntimeError -> settled p').
Proof.
  induction inbox as [|message rest IH]; intros p; cbv zeta.
  - simpl. split_and!; [done| |done].
    exists []. by rewrite app_nil_r.
  - rewrite receive_cons.
    pose proof (handle_message_outcome repr w message p) as Hout.
    pose proof (handle_message_balance repr w message p) as (d1 & Hl1 & Hb1).
    pose proof (handle_message_settled repr w message p) as Hs1.
    destruct (handle_message repr w message p) as [[[]|e] p1];
      cbn [fst snd] in *.
    + specialize (IH p1). cbv zeta in IH.
      destruct IH as (Hout2 & (d2 & Hl2 & Hb2) & Hs2).
      split_and!.
      * by apply allowed_outcome_later.
      * exists (d1 ++ d2). rewrite Hl2, Hl1, app_assoc, !count_app.
        split; [done|lia].
      * intros Hp Hne. apply Hs2; [|done]. by apply Hs1.
    + split_and!.
      * by apply allowed_outcome_first.
      * by exists d1.
      * done.
Qed.

(** ** The properties *)

(** X11.  However a connection ends (the client left, the inbox ran dry,
    or an exception went through), and whatever state the processor was
    in, [handle_connection] leaves it idle: not streaming and holding no
    capture. *)
Theorem a_connection_ends_idle repr w inbox p :
  idle (handle_connection repr w inbox p).2.
Proof.
  rewrite handle_connection_exact. cbv zeta.
  destruct (_ : res unit * processor).1 as [[]|e]; [by split|].
  by destruct e.
Qed.

(** X12.  An exception that leaves [handle_connection] was raised by
    one of three lines: by [json.loads] (line 79) for a message of the
    inbox, and then it is not a [JSONDecodeError]; by [data.get] (line
    80), an [AttributeError], and then [json.loads] turned some message
    into a value that is not a dict; or by [initialize_camera] (line
    26), a [RuntimeError], and then some message was a start command and
    the camera did not open.  The two exceptions the code has handlers
    for, [ConnectionClosed] from a send and [JSONDecodeError], never
    reach the caller. *)
Theorem what_can_leave_a_connection repr w inbox p :
  match (handle_connection repr w inbox p).1 with
  | Ok _ => True
  | Raise e =>
      e <> ConnectionClosed /\ e <> JSONDecodeError /\
      (refused_with e inbox \/
       (e = AttributeError /\ existsb not_an_object inbox = true) \/
       (e = RuntimeError /\
        device_opens w = false /\ existsb is_start inbox = true))
  end.
Proof.
  rewrite handle_connection_exact. cbv zeta.
  destruct (connected w) eqn:Hc; [|done].
  pose proof (receive_facts repr w inbox
    (logged (logged p [Stdout "New connection established"]) [Send greeting]))
    as (Hout & _).
  cbv zeta in Hout.
  destruct (receive _ _ _ _).1 as [[]|e]; [done|].
  destruct e; cbn [fst allowed_outcome] in *; try done;
    try (split_and!; [done|done|]);
    first [ by left | by right; left | by right; right
          | by rewrite Hc in Hout ].
Qed.

(** X13.  Over a connection every capture is released: the captures
    constructed during it, plus the one held when it began, are as many as
    the releases during it. *)
Theorem every_capture_is_released repr w inbox p :
  exists d,
    log (handle_connection repr w inbox p).2 = log p ++ d /\
    (count is_capture d + held p = count is_release d)%nat.
Proof.
  rewrite handle_connection_exact. cbv zeta.
  set (p0 := logged p [Stdout "New connection established"]).
  assert (Htear : forall s d,
    log s = log p ++ d ->
    (count is_capture d + held p = count is_release d + held s)%nat ->
    exists d', log (torn_down s) = log p ++ d' /\
      (count is_capture d' + held p = count is_release d')%nat).
  { intros s d Hl Hb. unfold torn_down, held in *. simpl.
    destruct (camera s).
    - exists (d ++ [Release]). rewrite Hl, app_assoc, !count_app.
      split; [done|]. change (count is_capture [Release]) with 0%nat.
      change (count is_release [Release]) with 1%nat. lia.
    - exists d. rewrite app_nil_r. split; [done|lia]. }
  assert (Hrecv : forall s d es,
    log s = log p ++ d ->
    (count is_capture d + held p = count is_release d + held s)%nat ->
    count is_capture es = 0%nat -> count is_release es = 0%nat ->
    exists d', log (torn_down (logged s es)) = log p ++ d' /\
      (count is_capture d' + held p = count is_release d')%nat).
  { intros s d es Hl Hb Hc Hr. apply (Htear _ (d ++ es)).
    - simpl. by rewrite Hl, app_assoc.
    - rewrite !count_app, Hc, Hr. change (held (logged s es)) with (held s).
      lia. }
  destruct (connected w).
  - pose proof (receive_facts repr w inbox (logged p0 [Send greeting]))
      as (_ & (d & Hl & Hb) & _).
    cbv zeta in Hl, Hb.
    set (served := receive repr w inbox (logged p0 [Send greeting])) in *.
    assert (Hl' : log served.2 =
      log p ++ ([Stdout "New connection established"; Send greeting] ++ d)).
    { rewrite Hl. simpl. by rewrite <- !app_assoc. }
    assert (Hb' : (count is_capture
        ([Stdout "New connection established"; Send greeting] ++ d) + held p
        = count is_release
            ([Stdout "New connection established"; Send greeting] ++ d)
          + held served.2)%nat).
    { rewrite !count_app.
      change (held (logged p0 [Send greeting])) with (held p) in Hb.
      change (count is_capture [Stdout "New connection established";
                                Send greeting]) with 0%nat.
      change (count is_release [Stdout "New connection established";
                                Send greeting]) with 0%nat.
      lia. }
    destruct served.1 as [[]|e]; [by eapply Htear|].
    destruct e; first [by eapply Htear|by eapply Hrecv].
  - cbn [fst snd].
    by apply (Hrecv p0 [Stdout "New connection established"]).
Qed.

(** X14.  A start command received by an idle session, with a camera
    that opens and a reachable client, makes the session stream: one
    capture is constructed, the frame size is recorded, one push task is
    created, and the client receives Camera streaming started. *)
Theorem start_from_idle repr w d p :
  connected w = true -> device_opens w = true -> idle p ->
  d !! "action" = Some (PStr "start") ->
  handle_message repr w (Json (PDict d)) p
  = (Ok tt, logged (opened w p) [Send started]) /\
  streaming (logged (opened w p) [Send started]).
Proof.
  intros Hc Hdev [Hs Hcam] Hd. split; [|by split].
  rewrite handle_message_exact, (command_of_action d _ Hd). simpl.
  rewrite Hs, Hcam, Hdev. by apply send_run.
Qed.

Lemma start_from_idle_witness :
  idle init /\
  handle_message sample_repr online (action (PStr "start")) init
  = (Ok tt,
     {| camera := Some true; is_streaming := true;
        frame_width := Some 640; frame_height := Some 480;
        log := [Stdout "Starting camera stream"; VideoCapture true;
                CreateTask; Send started] |}).
Proof.
  split; [by split|].
  exact (proj1 (start_from_idle sample_repr online
                  {[ "action" := PStr "start" ]} init
                  eq_refl eq_refl (conj eq_refl eq_refl) eq_refl)).
Defined.

(** X15.  A stop command from a reachable client leaves the session idle
    whatever state it was in: the flag is cleared, the capture is released
    if and only if one is held, and the client receives Camera streaming
    stopped. *)
Theorem stop_always_ends_idle repr w d p :
  connected w = true -> d !! "action" = Some (PStr "stop") ->
  handle_message repr w (Json (PDict d)) p
  = (Ok tt, logged (halted p) [Send stopped]) /\
  idle (logged (halted p) [Send stopped]).
Proof.
  intros Hc Hd. split; [|by split].
  rewrite handle_message_exact, (command_of_action d _ Hd). simpl.
  by apply send_run.
Qed.

Lemma stop_always_ends_idle_witness :
  connected online = true /\
  handle_message sample_repr online (action (PStr "stop")) busy
  = (Ok tt,
     {| camera := None; is_streaming := false;
        frame_width := Some 640; frame_height := Some 480;
        log := [Stdout "Stopping camera stream"; Release; Send stopped] |}).
Proof.
  split; [reflexivity|].
  exact (proj1 (stop_always_ends_idle sample_repr online
                  {[ "action" := PStr "stop" ]} busy eq_refl eq_refl)).
Defined.

(** X16.  [handle_message] answers a message with at most one message,
    sent last.  When it returns normally it has sent exactly one, but for
    a start command received while streaming, which has no effect at all;
    when it raises it has sent none. *)
Theorem one_reply_per_message repr w message p :
  let out := (handle_message repr w message p).1 in
  let p' := (handle_message repr w message p).2 in
  exists d, log p' = log p ++ d /\
    match out with
    | Ok _ =>
        (exists before r, d = before ++ [Send r] /\ count sends before = 0%nat)
        \/ (d = [] /\ is_start message = true /\ is_streaming p = true)
    | Raise _ => count sends d = 0%nat
    end.
Proof.
  cbv zeta. handle_cases w p;
    try (exists []; split; [by rewrite app_nil_r|]; first [done|by right]);
    (eexists; split; [rewrite <- ?app_assoc; reflexivity|]);
    try reflexivity;
    left; first [by eexists [], _|by eexists [_], _|by eexists [_; _], _
                |by eexists [_; _; _], _].
Qed.

(** X17.  When the client is gone before the greeting can be sent, the
    connection is over at once: no message of the inbox is handled,
    [ConnectionClosed] is caught, and the processor is left idle. *)
Theorem unreachable_client repr w inbox p :
  connected w = false ->
  handle_connection repr w inbox p
  = (Ok tt,
     torn_down (logged p [Stdout "New connection established";
                          Stdout "Connection closed"])).
Proof.
  intros Hc. rewrite handle_connection_exact, Hc. cbn [fst snd].
  do 2 f_equal. unfold logged. simpl. by rewrite <- app_assoc.
Qed.

Lemma unreachable_client_witness :
  connected offline = false /\
  handle_connection sample_repr offline [action (PStr "start")] busy
  = (Ok tt,
     {| camera := None; is_streaming := false;
        frame_width := Some 640; frame_height := Some 480;
        log := [Stdout "New connection established";
                Stdout "Connection closed"; Release] |}).
Proof.
  split; [reflexivity|].
  exact (unreachable_client sample_repr offline [action (PStr "start")] busy
           eq_refl).
Defined.

(** X18.  The session has two states, idle (flag clear, no capture) and
    streaming (flag set, an opened capture), and the messages of a
    connection never take it out of them unless the camera fails to open:
    in particular the flag is never set without an opened capture. *)
Theorem the_session_stays_in_its_two_states repr w inbox p :
  settled p ->
  (receive repr w inbox p).1 <> Raise RuntimeError ->
  settled (receive repr w inbox p).2.
Proof. apply receive_facts. Qed.

Lemma the_session_stays_in_its_two_states_witness :
  settled init /\
  settled (receive sample_repr online
             [action (PStr "start"); NotJson "hello"] init).2.
Proof.
  assert (H : settled init) by (left; by split).
  split; [exact H|].
  apply (the_session_stays_in_its_two_states sample_repr online
           [action (PStr "start"); NotJson "hello"] init H).
  vm_compute. discriminate.
Defined.

End ProcessorExtras.

(** * Properties of the push loop *)

Module PushLoopProofs.

Import VideoProcessor PushLoop.

Section Push.

Context {image : Type}.
Variable detect_and_plot : image -> res image.
Variable jpg_as_text : image -> string.

Local Abbreviation get_frame := (get_frame detect_and_plot jpg_as_text).
Local Abbreviation stream_camera := (stream_camera detect_and_plot jpg_as_text).
Local Abbreviation candidate := (candidate detect_and_plot jpg_as_text).

Lemma get_frame_exact read p :
  get_frame read p =
  (match camera p, read with
   | Some _, Some frame =>
       match detect_and_plot frame with
       | Ok processed_frame => Ok (Some (jpg_as_text processed_frame))
       | Raise e => Raise e
       end
   | _, _ => Ok None
   end, p).
Proof.
  unfold PushLoop.get_frame, process_frame, bind, gets, lift, ret.
  destruct (camera p); [|done]. destruct read as [frame|]; [|done].
  by destruct (detect_and_plot frame).
Qed.

Lemma stream_camera_cons (u : wakeup image) rest p :
  stream_camera (u :: rest) p =
  if negb (is_streaming p) then (Ok ([], Ended), p)
  else
    match (get_frame (read u) p).1 with
    | Raise e => (Raise e, p)
    | Ok None => stream_camera rest (meanwhile u p)
    | Ok (Some text) =>
        if socket u then
          let later := stream_camera rest (meanwhile u p) in
          (match later.1 with
           | Ok (sent, st) =>
               Ok ({| data := text; timestamp := now u |} :: sent, st)
           | Raise e => Raise e
           end, later.2)
        else (Ok ([], Ended), p)
    end.
Proof.
  cbn [PushLoop.stream_camera]. unfold bind at 1, gets at 1.
  destruct (is_streaming p); [|done]. cbn [negb].
  unfold bind at 1. rewrite get_frame_exact. cbn [fst].
  destruct (match camera p, read u with
            | Some _, Some frame =>
                match detect_and_plot frame with
                | Ok processed_frame => Ok (Some (jpg_as_text processed_frame))
                | Raise e => Raise e
                end
            | _, _ => Ok None
            end) as [[text|]|e]; [|done..].
  destruct (socket u); [|done].
  unfold bind, modify, ret.
  by destruct (PushLoop.stream_camera detect_and_plot jpg_as_text rest
                 (meanwhile u p)) as [[[sent st]|e] p'].
Qed.

Lemma sublist_omap_cons sent (u : wakeup image) rest :
  sublist sent (omap candidate rest) ->
  sublist sent (omap candidate (u :: rest)).
Proof.
  intros H. cbn [omap list_omap].
  destruct (candidate u); [by apply sublist_cons|done].
Qed.

(** X19.  The push loop reads [self] and never writes it: after any
    number of wake-ups [self] is what the other tasks made of it during
    the wake-ups the loop went through. *)
Theorem the_push_loop_only_reads (wakeups : list (wakeup image)) : forall p,
  exists k, (k <= length wakeups)%nat /\
    (stream_camera wakeups p).2 = foldl others p (take k wakeups).
Proof.
  induction wakeups as [|u rest IH]; intros p.
  - by exists 0%nat.
  - rewrite stream_camera_cons.
    assert (Hstop : exists k, (k <= length (u :: rest))%nat /\
                      p = foldl others p (take k (u :: rest))).
    { exists 0%nat. split; [simpl; lia|done]. }
    assert (Hgo : forall r : res (list frame_message * status) * processor,
      r.2 = (stream_camera rest (meanwhile u p)).2 ->
      exists k, (k <= length (u :: rest))%nat /\
        r.2 = foldl others p (take k (u :: rest))).
    { intros r ->. destruct (IH (meanwhile u p)) as (k & Hk & ->).
      exists (S k). split; [simpl; lia|done]. }
    destruct (negb (is_streaming p)); [done|].
    destruct (get_frame (read u) p).1 as [[text|]|e]; [|by apply Hgo|done].
    destruct (socket u); [|done]. by apply Hgo.
Qed.

(** X20.  The frames the push loop sends follow its wake-ups: each is the
    encoded, annotated image read at one wake-up, stamped with the time
    of that wake-up, and they are sent in the order of the wake-ups, at
    most one per wake-up. *)
Theorem pushed_frames_follow_the_wakeups (wakeups : list (wakeup image)) :
  forall p sent st,
  (stream_camera wakeups p).1 = Ok (sent, st) ->
  sublist sent (omap candidate wakeups).
Proof.
  induction wakeups as [|u rest IH]; intros p sent st.
  - intros [= <- <-]. constructor.
  - rewrite stream_camera_cons.
    destruct (negb (is_streaming p)); [intros [= <- <-]; apply sublist_nil_l|].
    rewrite get_frame_exact. cbn [fst].
    destruct (camera p) as [b|];
      [|intros H; apply sublist_omap_cons; by eapply IH].
    destruct (read u) as [frame|] eqn:Hread;
      [|intros H; apply sublist_omap_cons; by eapply IH].
    destruct (detect_and_plot frame) as [processed|e] eqn:Hplot; [|done].
    destruct (socket u); [|intros [= <- <-]; apply sublist_nil_l].
    cbv zeta. cbn [fst].
    destruct (stream_camera rest (meanwhile u p)).1 as [[later st']|e] eqn:Hl;
      [|done].
    intros [= <- <-]. cbn [omap list_omap]. unfold PushLoop.candidate at 1.
    rewrite Hread, Hplot. apply sublist_skip. by eapply IH.
Qed.


End Push.

Lemma pushed_frames_follow_the_wakeups_witness :
  (PushLoop.stream_camera sample_detect sample_text
     [undisturbed "a" "t1"; undisturbed "b" "t2"] busy).1
  = Ok ([ {| data := "a"; timestamp := "t1" |};
          {| data := "b"; timestamp := "t2" |} ], Running) /\
  sublist [ {| data := "a"; timestamp := "t1" |};
            {| data := "b"; timestamp := "t2" |} ]
    (omap (PushLoop.candidate sample_detect sample_text)
       [undisturbed "a" "t1"; undisturbed "b" "t2"]).
Proof.
  assert (H : (PushLoop.stream_camera sample_detect sample_text
                 [undisturbed "a" "t1"; undisturbed "b" "t2"] busy).1
              = Ok ([ {| data := "a"; timestamp := "t1" |};
                      {| data := "b"; timestamp := "t2" |} ], Running))
    by (vm_compute; reflexivity).
  split; [exact H|].
  exact (pushed_frames_follow_the_wakeups sample_detect sample_text
           [undisturbed "a" "t1"; undisturbed "b" "t2"] busy _ _ H).
Defined.


End PushLoopProofs.
